(** * Verification of the GitHub webhook receiver

    Shallow embedding of [app/webhook/routes.py] and of the events query of
    [app/__init__.py], and the properties of the specification proved (or
    refuted) over it.

    Conventions of the embedding.
    - A Python [str] is a [string]; each character is the code point of the
      same number, so the embedding covers the code points below 256.  This
      is exactly the range of the header values a WSGI server hands over;
      the text inside a payload is taken in the same range.
    - Python [bytes] are [list byte].
    - A value obtained from [request.json] is a [json] tree; a Python [dict]
      built from JSON is an association list read by first match.
    - A Python exception is a value of [exn]; code that may raise returns a
      [result].
    - A line written by [print] is the list of its code points, since the
      marks the handler prints lie beyond code point 256; [sys.stdout] is a
      function that writes a line or raises.  [receiver_printing] is the
      handler with every [print] of the source; [receiver] is the same
      handler read with the lines written, and [receiver_printing_written]
      relates the two. *)

From Stdlib Require Import List String Ascii NArith ZArith Bool Lia.
From Stdlib.Strings Require Import Byte.
From Stdlib Require Import DecimalString Sorted Permutation.
Import ListNotations.
#[local] Set Warnings "-register-all".  (* nested inductive [json] *)
Local Open Scope list_scope.
Local Open Scope string_scope.

(* ================================================================= *)
(** ** Bytes, text and hexadecimal rendering *)

Definition bytes := list byte.

Definition code (c : ascii) : N := N_of_ascii c.

Definition byte_of_N (n : N) : byte :=
  match Byte.of_N n with
  | Some b => b
  | None => x00
  end.

(** [str.encode('utf-8')] on code points below 256: one byte below 128, two
    bytes from 128 on. *)
Definition utf8_char (c : ascii) : bytes :=
  let n := code c in
  if (n <? 128)%N then [byte_of_N n]
  else [byte_of_N (192 + N.shiftr n 6); byte_of_N (128 + N.land n 63)].

Fixpoint encode_utf8 (s : string) : bytes :=
  match s with
  | EmptyString => []
  | String c s' => (utf8_char c ++ encode_utf8 s')%list
  end.

(** Plain ASCII text as bytes (used for literals in examples). *)
Definition ascii_bytes (s : string) : bytes := list_byte_of_string s.

Definition hex_digit (n : N) : ascii :=
  match n with
  | 0 => "0" | 1 => "1" | 2 => "2" | 3 => "3" | 4 => "4"
  | 5 => "5" | 6 => "6" | 7 => "7" | 8 => "8" | 9 => "9"
  | 10 => "a" | 11 => "b" | 12 => "c" | 13 => "d" | 14 => "e"
  | _ => "f"
  end%N%char.

(** Lowercase hexadecimal rendering, two digits per byte, as produced by
    [hexdigest()] and by [str] of an [ObjectId]. *)
Fixpoint hex_of_bytes (bs : bytes) : string :=
  match bs with
  | [] => EmptyString
  | b :: bs' =>
      let n := Byte.to_N b in
      String (hex_digit (N.shiftr n 4))
        (String (hex_digit (N.land n 15)) (hex_of_bytes bs'))
  end.

Definition is_ascii_char (c : ascii) : bool := (code c <? 128)%N.

Fixpoint is_ascii (s : string) : bool :=
  match s with
  | EmptyString => true
  | String c s' => is_ascii_char c && is_ascii s'
  end.

(* ================================================================= *)
(** ** SHA-256 and HMAC (the functions behind [hmac.new(..., hashlib.sha256)]) *)

Module Sha256.
Local Open Scope N_scope.
Local Open Scope list_scope.

Definition wrap (x : N) : N := x mod 0x100000000.
Definition add32 (x y : N) : N := wrap (x + y).
Definition rotr (n x : N) : N :=
  N.lor (N.shiftr x n) (wrap (N.shiftl x (32 - n))).
Definition not32 (x : N) : N := N.lxor x 0xffffffff.

Definition choose (x y z : N) : N :=
  N.lxor (N.land x y) (N.land (not32 x) z).
Definition majority (x y z : N) : N :=
  N.lxor (N.lxor (N.land x y) (N.land x z)) (N.land y z).
Definition big_sigma0 (x : N) : N :=
  N.lxor (N.lxor (rotr 2 x) (rotr 13 x)) (rotr 22 x).
Definition big_sigma1 (x : N) : N :=
  N.lxor (N.lxor (rotr 6 x) (rotr 11 x)) (rotr 25 x).
Definition small_sigma0 (x : N) : N :=
  N.lxor (N.lxor (rotr 7 x) (rotr 18 x)) (N.shiftr x 3).
Definition small_sigma1 (x : N) : N :=
  N.lxor (N.lxor (rotr 17 x) (rotr 19 x)) (N.shiftr x 10).

Definition round_constants : list N :=
  0x428a2f98 :: 0x71374491 :: 0xb5c0fbcf :: 0xe9b5dba5 ::
  0x3956c25b :: 0x59f111f1 :: 0x923f82a4 :: 0xab1c5ed5 ::
  0xd807aa98 :: 0x12835b01 :: 0x243185be :: 0x550c7dc3 ::
  0x72be5d74 :: 0x80deb1fe :: 0x9bdc06a7 :: 0xc19bf174 ::
  0xe49b69c1 :: 0xefbe4786 :: 0x0fc19dc6 :: 0x240ca1cc ::
  0x2de92c6f :: 0x4a7484aa :: 0x5cb0a9dc :: 0x76f988da ::
  0x983e5152 :: 0xa831c66d :: 0xb00327c8 :: 0xbf597fc7 ::
  0xc6e00bf3 :: 0xd5a79147 :: 0x06ca6351 :: 0x14292967 ::
  0x27b70a85 :: 0x2e1b2138 :: 0x4d2c6dfc :: 0x53380d13 ::
  0x650a7354 :: 0x766a0abb :: 0x81c2c92e :: 0x92722c85 ::
  0xa2bfe8a1 :: 0xa81a664b :: 0xc24b8b70 :: 0xc76c51a3 ::
  0xd192e819 :: 0xd6990624 :: 0xf40e3585 :: 0x106aa070 ::
  0x19a4c116 :: 0x1e376c08 :: 0x2748774c :: 0x34b0bcb5 ::
  0x391c0cb3 :: 0x4ed8aa4a :: 0x5b9cca4f :: 0x682e6ff3 ::
  0x748f82ee :: 0x78a5636f :: 0x84c87814 :: 0x8cc70208 ::
  0x90befffa :: 0xa4506ceb :: 0xbef9a3f7 :: 0xc67178f2 :: nil.

(** The eight chaining words. *)
Record chain := Chain { ha : N; hb : N; hc : N; hd : N;
                        he : N; hf : N; hg : N; hh : N }.

Definition initial_chain : chain :=
  Chain 0x6a09e667 0xbb67ae85 0x3c6ef372 0xa54ff53a
        0x510e527f 0x9b05688c 0x1f83d9ab 0x5be0cd19.

(** Padding: a single 0x80, zero bytes up to 56 modulo 64, then the bit
    length on eight bytes, most significant first. *)
Fixpoint big_endian (width : nat) (x : N) : list N :=
  match width with
  | O => nil
  | S w => N.shiftr x (8 * N.of_nat w) mod 256 :: big_endian w x
  end.

Definition pad (msg : list N) : list N :=
  let len := N.of_nat (List.length msg) in
  let zeros := N.to_nat ((119 - len mod 64) mod 64) in
  msg ++ (0x80 :: repeat 0 zeros) ++ big_endian 8 (8 * len).

Fixpoint words (bs : list N) : list N :=
  match bs with
  | b3 :: b2 :: b1 :: b0 :: rest =>
      (N.shiftl b3 24 + N.shiftl b2 16 + N.shiftl b1 8 + b0) :: words rest
  | _ => nil
  end.

(** Message schedule, most recent word first: [recent] holds W(t-1), W(t-2),
    ... and is extended by [n] further words. *)
Fixpoint extend (n : nat) (recent : list N) : list N :=
  match n with
  | O => recent
  | S n' =>
      let w := add32 (add32 (small_sigma1 (nth 1 recent 0)) (nth 6 recent 0))
                     (add32 (small_sigma0 (nth 14 recent 0)) (nth 15 recent 0)) in
      extend n' (w :: recent)
  end.

Definition schedule (block : list N) : list N :=
  rev (extend 48 (rev block)).

Definition round (s : chain) (kw : N * N) : chain :=
  let (k, w) := kw in
  let t1 := add32 (add32 (add32 (hh s) (big_sigma1 (he s)))
                         (add32 (choose (he s) (hf s) (hg s)) k)) w in
  let t2 := add32 (big_sigma0 (ha s)) (majority (ha s) (hb s) (hc s)) in
  Chain (add32 t1 t2) (ha s) (hb s) (hc s)
        (add32 (hd s) t1) (he s) (hf s) (hg s).

Definition compress (h : chain) (block : list N) : chain :=
  let s := fold_left round (combine round_constants (schedule block)) h in
  Chain (add32 (ha h) (ha s)) (add32 (hb h) (hb s))
        (add32 (hc h) (hc s)) (add32 (hd h) (hd s))
        (add32 (he h) (he s)) (add32 (hf h) (hf s))
        (add32 (hg h) (hg s)) (add32 (hh h) (hh s)).

Fixpoint blocks (fuel : nat) (h : chain) (ws : list N) : chain :=
  match fuel, ws with
  | S fuel', _ :: _ => blocks fuel' (compress h (firstn 16 ws)) (skipn 16 ws)
  | _, _ => h
  end.

Definition digest_words (h : chain) : list N :=
  ha h :: hb h :: hc h :: hd h :: he h :: hf h :: hg h :: hh h :: nil.

Definition sha256 (msg : bytes) : bytes :=
  let ws := words (pad (map Byte.to_N msg)) in
  let h := blocks (List.length ws) initial_chain ws in
  map byte_of_N (flat_map (big_endian 4) (digest_words h)).

Definition block_size : nat := 64.

Definition xor_pad (p : N) (key : bytes) : bytes :=
  map (fun b => byte_of_N (N.lxor (Byte.to_N b) p)) key.

(** HMAC (RFC 2104): a key longer than a block is hashed first, then padded
    with zero bytes to the block size. *)
Definition hmac (key msg : bytes) : bytes :=
  let k := if Nat.ltb block_size (List.length key) then sha256 key else key in
  let k := k ++ repeat x00 (block_size - List.length k) in
  sha256 (xor_pad 0x5c k ++ sha256 (xor_pad 0x36 k ++ msg)).

End Sha256.

Arguments Sha256.sha256 : simpl never.
Arguments Sha256.hmac : simpl never.

(* ================================================================= *)
(** ** Python values, exceptions and the builtins the handlers use *)

(** What [json.loads] can produce.  A float is named by the text [repr]
    gives for it (the shortest decimal that reads back to the same float:
    0.5, 1e+16, -0.0, nan), which determines the float. *)
Inductive json : Type :=
| JNull
| JBool (b : bool)
| JInt (n : Z)
| JFloat (repr : string)
| JStr (s : string)
| JArr (items : list json)
| JObj (fields : list (string * json)).

(** An exception, with the text [str(e)] gives for it. *)
Inductive exn : Type :=
| AttributeError (msg : string)   (* a method looked up on a value that lacks it *)
| TypeError (msg : string)        (* [compare_digest] on non-ASCII text *)
| BadRequest (msg : string)       (* [request.json] could not produce a value *)
| StoreError (msg : string)       (* raised by the MongoDB driver *)
| UnicodeEncodeError (msg : string).   (* [print] of text stdout cannot encode *)

Inductive result (A : Type) : Type :=
| Ok (a : A)
| Raise (e : exn).
Arguments Ok {A} a.
Arguments Raise {A} e.

Definition bind {A B} (c : result A) (k : A -> result B) : result B :=
  match c with
  | Ok a => k a
  | Raise e => Raise e
  end.

Declare Scope result_scope.
Delimit Scope result_scope with result.
Notation "x <- c ;; k" := (bind c (fun x => k))
  (at level 61, c at next level, right associativity) : result_scope.

(** [str(e)] for an exception. *)
Definition exn_str (e : exn) : string :=
  match e with
  | AttributeError msg | TypeError msg | BadRequest msg | StoreError msg
  | UnicodeEncodeError msg => msg
  end.

(** [type(v).__name__]. *)
Definition type_name (v : json) : string :=
  match v with
  | JNull => "NoneType"
  | JBool _ => "bool"
  | JInt _ => "int"
  | JFloat _ => "float"
  | JStr _ => "str"
  | JArr _ => "list"
  | JObj _ => "dict"
  end.

(** What [v.attr] raises when [v] has no such attribute. *)
Definition no_attribute (v : json) (attr : string) : exn :=
  AttributeError ("'" ++ type_name v ++ "' object has no attribute '" ++ attr ++ "'").

(** Truth value of a Python object ([not x], [if x]). *)
Definition truthy (v : json) : bool :=
  match v with
  | JNull => false
  | JBool b => b
  | JInt n => negb (n =? 0)%Z
  | JFloat r => negb ((r =? "0.0") || (r =? "-0.0"))
  | JStr s => negb (s =? "")
  | JArr items => match items with [] => false | _ => true end
  | JObj fields => match fields with [] => false | _ => true end
  end.

Definition truthy_str (s : option string) : bool :=
  match s with
  | Some t => negb (t =? "")
  | None => false
  end.

Fixpoint assoc (k : string) (fields : list (string * json)) : option json :=
  match fields with
  | [] => None
  | (k', v) :: rest => if k' =? k then Some v else assoc k rest
  end.

(** [d.get(k, default)]: only a dict has the method. *)
Definition dict_get (d : json) (k : string) (default : json) : result json :=
  match d with
  | JObj fields =>
      Ok (match assoc k fields with Some v => v | None => default end)
  | _ => Raise (no_attribute d "get")
  end.

(** [v == 'text'] for a literal. *)
Definition eq_str (v : json) (s : string) : bool :=
  match v with
  | JStr t => t =? s
  | _ => false
  end.

Definition opt_eq_str (v : option string) (s : string) : bool :=
  match v with
  | Some t => t =? s
  | None => false
  end.

(** [s.replace(old, new)] for a non-empty [old]: occurrences are found left to
    right and do not overlap.  [skip] counts the characters of a match still
    to be dropped. *)
Fixpoint replace_from (old new : string) (skip : nat) (s : string) : string :=
  match s with
  | EmptyString => EmptyString
  | String c s' =>
      match skip with
      | S k => replace_from old new k s'
      | O =>
          if prefix old s
          then new ++ replace_from old new (String.length old - 1) s'
          else String c (replace_from old new 0 s')
      end
  end.

Definition str_replace (old new s : string) : string :=
  replace_from old new 0 s.

(** [v.replace(old, new)]: only a str has the method. *)
Definition method_replace (v : json) (old new : string) : result json :=
  match v with
  | JStr s => Ok (JStr (str_replace old new s))
  | _ => Raise (no_attribute v "replace")
  end.

(** *** [str] and [repr] *)

Fixpoint contains_char (c : ascii) (s : string) : bool :=
  match s with
  | EmptyString => false
  | String c' s' => Ascii.eqb c c' || contains_char c s'
  end.

Definition hex2 (n : N) : string :=
  String (hex_digit (N.shiftr n 4)) (String (hex_digit (N.land n 15)) "").

Definition printable (n : N) : bool :=
  ((32 <=? n) && (n <? 127) || (161 <=? n) && negb (n =? 173))%N.

Definition repr_char (quote c : ascii) : string :=
  let n := code c in
  if Ascii.eqb c "\" then "\\"
  else if Ascii.eqb c quote then String "\" (String quote "")
  else if (n =? 9)%N then "\t"
  else if (n =? 10)%N then "\n"
  else if (n =? 13)%N then "\r"
  else if printable n then String c ""
  else "\x" ++ hex2 n.

Fixpoint repr_chars (quote : ascii) (s : string) : string :=
  match s with
  | EmptyString => EmptyString
  | String c s' => repr_char quote c ++ repr_chars quote s'
  end.

Definition single_quote : ascii := ascii_of_nat 39.
Definition double_quote : ascii := ascii_of_nat 34.

(** [repr] of a str: single quotes, unless the text holds a single quote and
    no double quote. *)
Definition repr_str (s : string) : string :=
  let quote : ascii :=
    if contains_char single_quote s && negb (contains_char double_quote s)
    then double_quote else single_quote in
  String quote (repr_chars quote s ++ String quote "").

Definition str_int (n : Z) : string := NilZero.string_of_int (Z.to_int n).

Fixpoint join (sep : string) (parts : list string) : string :=
  match parts with
  | [] => ""
  | [p] => p
  | p :: rest => p ++ sep ++ join sep rest
  end.

Fixpoint py_repr (v : json) : string :=
  match v with
  | JNull => "None"
  | JBool true => "True"
  | JBool false => "False"
  | JInt n => str_int n
  | JFloat r => r
  | JStr s => repr_str s
  | JArr items => "[" ++ join ", " (map py_repr items) ++ "]"
  | JObj fields =>
      "{" ++ join ", " (map (fun kv => repr_str (fst kv) ++ ": " ++ py_repr (snd kv))
                            fields) ++ "}"
  end.

Definition py_str (v : json) : string :=
  match v with
  | JStr s => s
  | _ => py_repr v
  end.

(* ================================================================= *)
(** ** [verify_webhook_signature] *)

Definition placeholder_secret : string := "your-webhook-secret-here".

(** [hmac.compare_digest] on two [str]: both must be ASCII, else TypeError. *)
Definition non_ascii_digest : exn :=
  TypeError "comparing strings with non-ASCII characters is not supported".

Definition compare_digest (a b : string) : result bool :=
  if is_ascii a && is_ascii b then Ok (a =? b) else Raise non_ascii_digest.

(** [hmac.new(secret.encode('utf-8'), msg=payload_body,
    digestmod=hashlib.sha256)] followed by ["sha256=" + hexdigest()]. *)
Definition expected_signature (secret : string) (payload_body : bytes) : string :=
  "sha256=" ++ hex_of_bytes (Sha256.hmac (encode_utf8 secret) payload_body).

(** [not secret] holds for [None] and for the empty string; likewise
    [not signature_header]. *)
Definition verify_webhook_signature
    (payload_body : bytes) (signature_header secret : option string)
  : result bool :=
  match secret with
  | None => Ok true
  | Some key =>
      if (key =? "") || (key =? placeholder_secret) then Ok true
      else
        match signature_header with
        | None => Ok false
        | Some header =>
            if header =? "" then Ok false
            else compare_digest (expected_signature key payload_body) header
        end
  end.

(* ================================================================= *)
(** ** The event document built by [receiver] *)

(** The dict [event_data]: its six keys are fixed; [action] and [timestamp]
    are always Python strings, the other values come from the payload. *)
Record event_data : Type := EventData {
  request_id : json;
  author : json;
  action : string;
  from_branch : json;
  to_branch : json;
  timestamp : string
}.

Local Open Scope result_scope.

(** Lines 149-230 of [receiver]: the dispatch on [event_type] that fills
    [event_data] ([None] when the event is not handled).  [now] is the value
    of [datetime.utcnow().isoformat()]. *)
Definition normalize (event_type : option string) (now : string) (payload : json)
  : result (option event_data) :=
  if opt_eq_str event_type "push" then
    after <- dict_get payload "after" (JStr "unknown") ;;
    pusher <- dict_get payload "pusher" (JObj []) ;;
    name <- dict_get pusher "name" (JStr "Unknown") ;;
    ref <- dict_get payload "ref" (JStr "") ;;
    branch <- method_replace ref "refs/heads/" "" ;;
    Ok (Some (EventData after name "PUSH" JNull branch now))
  else if opt_eq_str event_type "pull_request" then
    act <- dict_get payload "action" JNull ;;
    pr <- dict_get payload "pull_request" (JObj []) ;;
    if eq_str act "opened" || eq_str act "reopened" then
      id <- dict_get pr "id" (JStr "unknown") ;;
      user <- dict_get pr "user" (JObj []) ;;
      login <- dict_get user "login" (JStr "Unknown") ;;
      head <- dict_get pr "head" (JObj []) ;;
      head_ref <- dict_get head "ref" (JStr "unknown") ;;
      base <- dict_get pr "base" (JObj []) ;;
      base_ref <- dict_get base "ref" (JStr "unknown") ;;
      Ok (Some (EventData (JStr (py_str id)) login "PULL_REQUEST"
                          head_ref base_ref now))
    else
      (* [action == 'closed' and pr.get('merged')]: the right operand is
         evaluated only when the left one holds *)
      is_merge <- (if eq_str act "closed"
                   then merged <- dict_get pr "merged" JNull ;; Ok (truthy merged)
                   else Ok false) ;;
      if is_merge then
        sha <- dict_get pr "merge_commit_sha" (JStr "unknown") ;;
        merged_by <- dict_get pr "merged_by" (JObj []) ;;
        login <- dict_get merged_by "login" (JStr "Unknown") ;;
        head <- dict_get pr "head" (JObj []) ;;
        head_ref <- dict_get head "ref" (JStr "unknown") ;;
        base <- dict_get pr "base" (JObj []) ;;
        base_ref <- dict_get base "ref" (JStr "unknown") ;;
        Ok (Some (EventData sha login "MERGE" head_ref base_ref now))
      else Ok None
  else Ok None.

Local Close Scope result_scope.

(* ================================================================= *)
(** ** The events collection and the handler monad *)

Definition ObjectId := bytes.

(** A stored document: the inserted dict plus the [_id] the driver adds. *)
Record document : Type := Document {
  _id : ObjectId;
  event : event_data
}.

(** [mongo.db.events], in insertion order. *)
Definition collection := list document.

(** What a handler run did, in order: calling the verifier, reading
    [request.json], entering the dispatch on the event type, calling
    [insert_one], writing a line to stdout. *)
Inductive effect : Type :=
| CallVerify
| ReadJson
| Dispatch
| InsertOne (d : event_data)
| Printed (line : list N).

(** A handler computation: runs on the collection, may raise, yields the new
    collection and the effects performed. *)
Definition M (A : Type) : Type := collection -> result A * collection * list effect.

Definition ret {A} (a : A) : M A := fun st => (Ok a, st, []).

Definition mbind {A B} (c : M A) (k : A -> M B) : M B :=
  fun st =>
    match c st with
    | (Ok a, st1, log1) =>
        match k a st1 with
        | (r, st2, log2) => (r, st2, (log1 ++ log2)%list)
        end
    | (Raise e, st1, log1) => (Raise e, st1, log1)
    end.

Definition lift {A} (c : result A) : M A := fun st => (c, st, []).

Definition tell (e : effect) : M unit := fun st => (Ok tt, st, [e]).

(** [try: body / except Exception as e: handler]. *)
Definition try_except {A} (body : M A) (handler : exn -> M A) : M A :=
  fun st =>
    match body st with
    | (Ok a, st1, log1) => (Ok a, st1, log1)
    | (Raise e, st1, log1) =>
        match handler e st1 with
        | (r, st2, log2) => (r, st2, (log1 ++ log2)%list)
        end
    end.

Declare Scope handler_scope.
Delimit Scope handler_scope with handler.
Notation "x <- c ;; k" := (mbind c (fun x => k))
  (at level 61, c at next level, right associativity) : handler_scope.
Notation "c ;; k" := (mbind c (fun _ => k))
  (at level 61, right associativity) : handler_scope.

(** The request as Flask presents it: two headers, the raw body, and what
    the [request.json] property yields (a parsed value, [None] as [JNull],
    or an exception when the body cannot be read as JSON).  Flask computes
    [request.json] from the same body; its parser is outside the repository,
    so the record carries both, and no property below varies one while
    keeping the other. *)
Record request : Type := Request {
  header_event : option string;        (* X-GitHub-Event *)
  header_signature : option string;    (* X-Hub-Signature-256 *)
  request_data : bytes;
  request_json : result json
}.

(** The reply of the store to an insertion: the identifier it assigned, or
    the message of the exception the driver raises. *)
Inductive store_reply : Type :=
| Inserted (oid : ObjectId)
| Failed (msg : string).

(** What the handler reads from outside the request: the configured secret,
    the clock, and the reply of the store to an insertion (the identifier
    assigned, or the driver's exception). *)
Record environment : Type := Environment {
  WEBHOOK_SECRET : option string;
  utcnow_isoformat : string;
  insert_reply : store_reply
}.

(** [(jsonify(body), status)]. *)
Record response : Type := Response {
  status : nat;
  body : json
}.

(** [mongo.db.events.insert_one(event_data)]. *)
Definition insert_one (env : environment) (d : event_data) : M ObjectId :=
  fun st =>
    match insert_reply env with
    | Inserted oid => (Ok oid, (st ++ [Document oid d])%list, [InsertOne d])
    | Failed msg => (Raise (StoreError msg), st, [InsertOne d])
    end.

Definition invalid_signature : response :=
  Response 401 (JObj [("error", JStr "Invalid signature")]).
Definition no_payload : response :=
  Response 400 (JObj [("error", JStr "No payload")]).
Definition invalid_json : response :=
  Response 400 (JObj [("error", JStr "Invalid JSON")]).
Definition ignored : response :=
  Response 200 (JObj [("status", JStr "ignored");
                      ("reason", JStr "Event type not handled")]).
Definition success (oid : ObjectId) : response :=
  Response 200 (JObj [("status", JStr "success");
                      ("id", JStr (hex_of_bytes oid))]).
Definition database_error (e : exn) : response :=
  Response 500 (JObj [("error", JStr "Database error");
                      ("message", JStr (exn_str e))]).

(** [webhook_secret and webhook_secret != 'your-webhook-secret-here']. *)
Definition real_secret (secret : option string) : bool :=
  truthy_str secret && negb (opt_eq_str secret placeholder_secret).

Local Open Scope handler_scope.

(** [POST /webhook/receiver], read with every log line written: the calls
    of [print] are left out, the [payload.get] inside the last one is kept.
    An exception that leaves the function is the [Raise] outcome (the
    framework answers 500 for it).  [receiver_printing] below is the handler
    with its calls of [print]. *)
Definition receiver (env : environment) (req : request) : M response :=
  let event_type := header_event req in
  let signature := header_signature req in
  let webhook_secret := WEBHOOK_SECRET env in
  rejected <- (if real_secret webhook_secret then
                 tell CallVerify ;;
                 valid <- lift (verify_webhook_signature
                                  (request_data req) signature webhook_secret) ;;
                 ret (negb valid)
               else ret false) ;;
  if rejected : bool then ret invalid_signature
  else
    parsed <- try_except
                (tell ReadJson ;;
                 payload <- lift (request_json req) ;;
                 if negb (truthy payload) then ret (inl no_payload)
                 else ret (inr payload))
                (fun _ => ret (inl invalid_json)) ;;
    match parsed with
    | inl early => ret early
    | inr payload =>
        tell Dispatch ;;
        extracted <- lift (normalize event_type (utcnow_isoformat env) payload) ;;
        match extracted with
        | Some d =>
            try_except
              (oid <- insert_one env d ;; ret (success oid))
              (fun e => ret (database_error e))
        | None =>
            (* the log line reads [payload.get('action', 'no action')] *)
            lift (dict_get payload "action" (JStr "no action")) ;;
            ret ignored
        end
    end.

Local Close Scope handler_scope.

(* ================================================================= *)
(** ** The handler with its log lines *)

(** [sys.stdout] as [print] uses it: writing a text, given by its code
    points, succeeds or raises (UnicodeEncodeError when the encoding of
    stdout lacks one of the characters). *)
Definition stdout := list N -> result unit.

Definition chars (s : string) : list N := map code (list_ascii_of_string s).

(** What a replacement field of an f-string shows for a header value:
    [str] of it, ["None"] when the header is absent. *)
Definition shown (v : option string) : string :=
  match v with
  | Some s => s
  | None => "None"
  end.

Definition check_mark : list N := [0x2705%N].
Definition cross_mark : list N := [0x274C%N].
Definition warning_sign : list N := [0x26A0%N; 0xFE0F%N].

(** The texts given to [print], by line of the source. *)
Definition line_received : list N :=                         (* 112 *)
  (10%N :: chars "=== WEBHOOK RECEIVED ===")%list.
Definition line_event_type (event_type : option string) : list N :=   (* 121 *)
  chars ("Event Type: " ++ shown event_type).
Definition line_content_type (content_type : option string) : list N := (* 122 *)
  chars ("Content-Type: " ++ shown content_type).
Definition line_signature_failed : list N :=                 (* 133 *)
  (cross_mark ++ chars " Signature verification failed!")%list.
Definition line_no_payload : list N :=                       (* 140 *)
  (cross_mark ++ chars " No JSON payload received")%list.
Definition line_json_error (e : exn) : list N :=             (* 143 *)
  (cross_mark ++ chars (" Error parsing JSON: " ++ exn_str e))%list.
Definition line_payload_received (event_type : option string) : list N := (* 146 *)
  chars ("Payload received: " ++ shown event_type).
Definition line_event (d : event_data) : list N :=           (* 179, 218, 230 *)
  (check_mark ++
   chars (if action d =? "PUSH" then
            " Push event: " ++ py_str (author d)
            ++ " pushed to " ++ py_str (to_branch d)
          else if action d =? "PULL_REQUEST" then
            " PR event: " ++ py_str (author d)
            ++ " created PR from " ++ py_str (from_branch d)
            ++ " to " ++ py_str (to_branch d)
          else
            " Merge event: " ++ py_str (author d)
            ++ " merged " ++ py_str (from_branch d)
            ++ " to " ++ py_str (to_branch d)))%list.
Definition line_saved (oid : ObjectId) : list N :=           (* 238 *)
  (check_mark ++ chars (" Event saved to MongoDB with ID: " ++ hex_of_bytes oid))%list.
Definition line_store_error (e : exn) : list N :=            (* 248 *)
  (cross_mark ++ chars (" Error saving to MongoDB: " ++ exn_str e))%list.
Definition line_ignored (event_type : option string) (act : json) : list N := (* 255 *)
  (warning_sign ++
   chars (" Event ignored: " ++ shown event_type ++ " - " ++ py_str act))%list.

(** [print(text)]. *)
Definition print (out : stdout) (line : list N) : M unit :=
  fun st =>
    match out line with
    | Ok _ => (Ok tt, st, [Printed line])
    | Raise e => (Raise e, st, [])
    end.

Local Open Scope handler_scope.

(** Lines 149-230 of [receiver] as they run: the dispatch of [normalize],
    then the log line of the branch taken. *)
Definition extract (out : stdout) (event_type : option string) (now : string)
    (payload : json) : M (option event_data) :=
  extracted <- lift (normalize event_type now payload) ;;
  match extracted with
  | Some d => print out (line_event d) ;; ret (Some d)
  | None => ret None
  end.

(** [POST /webhook/receiver] with every call of [print]; [content_type] is
    the Content-Type header, which the handler only logs.  [receiver] above
    is this function when every log line is written. *)
Definition receiver_printing (out : stdout) (content_type : option string)
    (env : environment) (req : request) : M response :=
  print out line_received ;;
  let event_type := header_event req in
  let signature := header_signature req in
  print out (line_event_type event_type) ;;
  print out (line_content_type content_type) ;;
  let webhook_secret := WEBHOOK_SECRET env in
  rejected <- (if real_secret webhook_secret then
                 tell CallVerify ;;
                 valid <- lift (verify_webhook_signature
                                  (request_data req) signature webhook_secret) ;;
                 if valid : bool then ret false
                 else print out line_signature_failed ;; ret true
               else ret false) ;;
  if rejected : bool then ret invalid_signature
  else
    parsed <- try_except
                (tell ReadJson ;;
                 payload <- lift (request_json req) ;;
                 if negb (truthy payload)
                 then print out line_no_payload ;; ret (inl no_payload)
                 else ret (inr payload))
                (fun e => print out (line_json_error e) ;;
                          ret (inl invalid_json)) ;;
    match parsed with
    | inl early => ret early
    | inr payload =>
        print out (line_payload_received event_type) ;;
        tell Dispatch ;;
        extracted <- extract out event_type (utcnow_isoformat env) payload ;;
        match extracted with
        | Some d =>
            try_except
              (oid <- insert_one env d ;;
               print out (line_saved oid) ;;
               ret (success oid))
              (fun e => print out (line_store_error e) ;;
                        ret (database_error e))
        | None =>
            act <- lift (dict_get payload "action" (JStr "no action")) ;;
            print out (line_ignored event_type act) ;;
            ret ignored
        end
    end.

Local Close Scope handler_scope.

(** A stdout that writes every text. *)
Definition writes_all : stdout := fun _ => Ok tt.

(** The effects other than the written log lines. *)
Definition silent (log : list effect) : list effect :=
  filter (fun e => match e with Printed _ => false | _ => true end) log.

(** A character [utf-8] can encode: any code point but a surrogate. *)
Definition encodable_utf8 (cp : N) : bool :=
  ((cp <? 0xD800) || (0xDFFF <? cp))%N.

(** A stdout that writes every text free of surrogates, as one with the
    UTF-8 encoding does. *)
Definition writes_utf8 (out : stdout) : Prop :=
  forall line, forallb encodable_utf8 line = true -> out line = Ok tt.

(** A stdout with the ASCII encoding: a text with a character outside ASCII
    is refused, with the message naming the first run of such characters. *)
Fixpoint hex_width (width : nat) (n : N) : string :=
  match width with
  | O => ""
  | S w => String (hex_digit (N.land (N.shiftr n (4 * N.of_nat w)) 15))
                  (hex_width w n)
  end.

Definition escaped (cp : N) : string :=
  if (cp <? 0x100)%N then "\x" ++ hex_width 2 cp
  else if (cp <? 0x10000)%N then "\u" ++ hex_width 4 cp
  else "\U" ++ hex_width 8 cp.

Fixpoint run_length (line : list N) : nat :=
  match line with
  | cp :: rest => if (cp <? 128)%N then 0 else S (run_length rest)
  | [] => 0
  end.

Fixpoint ascii_refusal (position : nat) (line : list N) : option string :=
  match line with
  | [] => None
  | cp :: rest =>
      if (cp <? 128)%N then ascii_refusal (S position) rest
      else
        Some ("'ascii' codec can't encode " ++
              match run_length rest with
              | O => "character '" ++ escaped cp ++ "' in position "
                     ++ str_int (Z.of_nat position)
              | S more => "characters in position "
                          ++ str_int (Z.of_nat position) ++ "-"
                          ++ str_int (Z.of_nat (position + S more))
              end ++ ": ordinal not in range(128)")
  end.

Definition ascii_stdout : stdout :=
  fun line =>
    match ascii_refusal 0 line with
    | Some msg => Raise (UnicodeEncodeError msg)
    | None => Ok tt
    end.

Arguments line_received : simpl never.
Arguments line_event_type : simpl never.
Arguments line_content_type : simpl never.
Arguments line_signature_failed : simpl never.
Arguments line_no_payload : simpl never.
Arguments line_json_error : simpl never.
Arguments line_payload_received : simpl never.
Arguments line_event : simpl never.
Arguments line_saved : simpl never.
Arguments line_store_error : simpl never.
Arguments line_ignored : simpl never.

(* ================================================================= *)
(** ** [GET /api/events] *)

(** [.sort('timestamp', -1)]: documents by descending timestamp.  The store
    is outside the repository; this is its reference behaviour on the
    documents the handler inserts: the timestamps are strings, compared
    character by character, and among equal timestamps the insertion order
    is kept. *)
Fixpoint insert_desc (d : document) (sorted : list document) : list document :=
  match sorted with
  | [] => [d]
  | x :: rest =>
      if String.leb (timestamp (event x)) (timestamp (event d))
      then d :: sorted
      else x :: insert_desc d rest
  end.

Fixpoint sort_desc (docs : list document) : list document :=
  match docs with
  | [] => []
  | d :: rest => insert_desc d (sort_desc rest)
  end.

(** [mongo.db.events.find().sort('timestamp', -1).limit(n)]. *)
Definition recent (limit : nat) (st : collection) : list document :=
  firstn limit (sort_desc st).

(** A fetched document after [event['_id'] = str(event['_id'])], as the JSON
    object [jsonify] writes. *)
Definition event_json (d : document) : json :=
  JObj [("_id", JStr (hex_of_bytes (_id d)));
        ("request_id", request_id (event d));
        ("author", author (event d));
        ("action", JStr (action (event d)));
        ("from_branch", from_branch (event d));
        ("to_branch", to_branch (event d));
        ("timestamp", JStr (timestamp (event d)))].

Definition get_events (st : collection) : response :=
  let events := recent 10 st in
  Response 200 (JArr (map event_json events)).

Arguments str_replace : simpl never.
Arguments py_str : simpl never.
Arguments hex_of_bytes : simpl never.

(* ================================================================= *)
(** ** Vocabulary of the specification *)

(** [payload.k1.k2...]: the value reached by following the keys through
    nested objects; nothing when a key is absent or a value on the way is
    not an object. *)
Fixpoint lookup (path : list string) (v : json) : option json :=
  match path with
  | [] => Some v
  | k :: rest =>
      match v with
      | JObj fields =>
          match assoc k fields with
          | Some x => lookup rest x
          | None => None
          end
      | _ => None
      end
  end.

(** "[payload.k1.k2] or [default]". *)
Definition field_or (default : json) (path : list string) (v : json) : json :=
  match lookup path v with
  | Some x => x
  | None => default
  end.

Definition is_object (v : json) : bool :=
  match v with JObj _ => true | _ => false end.

Definition is_text (v : json) : bool :=
  match v with JStr _ => true | _ => false end.

Definition text (v : json) : string :=
  match v with JStr s => s | _ => "" end.

Definition object_or_absent (path : list string) (v : json) : bool :=
  match lookup path v with
  | Some x => is_object x
  | None => true
  end.

Definition text_or_absent (path : list string) (v : json) : bool :=
  match lookup path v with
  | Some x => is_text x
  | None => true
  end.

Definition null_at (path : list string) (v : json) : bool :=
  match lookup path v with
  | Some JNull => true
  | _ => false
  end.

(** [old] occurs somewhere in [s] (for a non-empty [old]). *)
Fixpoint occurs (old s : string) : bool :=
  match s with
  | EmptyString => false
  | String _ s' => prefix old s || occurs old s'
  end.

Fixpoint drop (n : nat) (s : string) : string :=
  match n, s with
  | S n', String _ s' => drop n' s'
  | _, _ => s
  end.

(** "[s] with only the leading [p] stripped". *)
Definition strip_leading (p s : string) : string :=
  if prefix p s then drop (String.length p) s else s.

(** The shapes under which the traversals of [normalize] find what they
    expect: the payload is an object, every nested value it walks through is
    absent or an object, and [ref] is absent or a string. *)
Definition push_shape (p : json) : bool :=
  is_object p && object_or_absent ["pusher"] p && text_or_absent ["ref"] p.

Definition pull_request_shape (p : json) : bool :=
  is_object p && object_or_absent ["pull_request"] p.

Definition branches_shape (p : json) : bool :=
  object_or_absent ["pull_request"; "head"] p
  && object_or_absent ["pull_request"; "base"] p.

Definition opened_shape (p : json) : bool :=
  pull_request_shape p && object_or_absent ["pull_request"; "user"] p
  && branches_shape p.

Definition merge_shape (p : json) : bool :=
  pull_request_shape p && object_or_absent ["pull_request"; "merged_by"] p
  && branches_shape p.

(** The three rows of the dispatch table, with their default sentinels. *)
Definition push_event (now : string) (p : json) : event_data :=
  EventData (field_or (JStr "unknown") ["after"] p)
            (field_or (JStr "Unknown") ["pusher"; "name"] p)
            "PUSH"
            JNull
            (JStr (str_replace "refs/heads/" ""
                     (text (field_or (JStr "") ["ref"] p))))
            now.

Definition pull_request_event (now : string) (p : json) : event_data :=
  EventData (JStr (py_str (field_or (JStr "unknown") ["pull_request"; "id"] p)))
            (field_or (JStr "Unknown") ["pull_request"; "user"; "login"] p)
            "PULL_REQUEST"
            (field_or (JStr "unknown") ["pull_request"; "head"; "ref"] p)
            (field_or (JStr "unknown") ["pull_request"; "base"; "ref"] p)
            now.

Definition merge_event (now : string) (p : json) : event_data :=
  EventData (field_or (JStr "unknown") ["pull_request"; "merge_commit_sha"] p)
            (field_or (JStr "Unknown") ["pull_request"; "merged_by"; "login"] p)
            "MERGE"
            (field_or (JStr "unknown") ["pull_request"; "head"; "ref"] p)
            (field_or (JStr "unknown") ["pull_request"; "base"; "ref"] p)
            now.

Definition action_of (p : json) : json := field_or JNull ["action"] p.

Definition opened_or_reopened (p : json) : bool :=
  eq_str (action_of p) "opened" || eq_str (action_of p) "reopened".

Definition closed_and_merged (p : json) : bool :=
  eq_str (action_of p) "closed"
  && truthy (field_or JNull ["pull_request"; "merged"] p).



(** The payload keys the fields of an event are copied from, by action. *)
Definition copied_paths_for (act : string) : list (list string) :=
  if act =? "PUSH" then
    [ ["after"]; ["pusher"; "name"] ]
  else if act =? "PULL_REQUEST" then
    [ ["pull_request"; "user"; "login"];
      ["pull_request"; "head"; "ref"];
      ["pull_request"; "base"; "ref"] ]
  else
    [ ["pull_request"; "merge_commit_sha"];
      ["pull_request"; "merged_by"; "login"];
      ["pull_request"; "head"; "ref"];
      ["pull_request"; "base"; "ref"] ].

Definition no_explicit_null_for (act : string) (p : json) : bool :=
  forallb (fun path => negb (null_at path p)) (copied_paths_for act).

(** The effects of the signature gate of [receiver]. *)
Definition gate_log (env : environment) : list effect :=
  if real_secret (WEBHOOK_SECRET env) then [CallVerify] else [].

Definition inserts (log : list effect) : list event_data :=
  flat_map (fun e => match e with InsertOne d => [d] | _ => [] end) log.

(** Descending timestamps. *)
Definition newer_or_equal (a b : document) : Prop :=
  String.leb (timestamp (event b)) (timestamp (event a)) = true.

(** The value of [pr = payload.get('pull_request', {})]. *)
Definition pr_of (p : json) : json := field_or (JObj []) ["pull_request"] p.

(** The events the specification calls not handled. *)
Definition unhandled (event_type : option string) (p : json) : Prop :=
  (opt_eq_str event_type "push" = false
   /\ opt_eq_str event_type "pull_request" = false)
  \/ (opt_eq_str event_type "pull_request" = true
      /\ opened_or_reopened p = false
      /\ eq_str (action_of p) "closed" = false)
  \/ (opt_eq_str event_type "pull_request" = true
      /\ eq_str (action_of p) "closed" = true
      /\ object_or_absent ["pull_request"] p = true
      /\ truthy (field_or JNull ["pull_request"; "merged"] p) = false).

(** What [receiver] does once the signature gate is passed. *)
Definition after_gate (env : environment) (req : request) (st : collection)
  : result response * collection * list effect :=
  match request_json req with
  | Raise _ => (Ok invalid_json, st, (gate_log env ++ [ReadJson])%list)
  | Ok p =>
      if truthy p then
        match normalize (header_event req) (utcnow_isoformat env) p with
        | Raise e => (Raise e, st, (gate_log env ++ [ReadJson; Dispatch])%list)
        | Ok None =>
            match dict_get p "action" (JStr "no action") with
            | Ok _ => (Ok ignored, st, (gate_log env ++ [ReadJson; Dispatch])%list)
            | Raise e => (Raise e, st, (gate_log env ++ [ReadJson; Dispatch])%list)
            end
        | Ok (Some d) =>
            match insert_reply env with
            | Inserted oid =>
                (Ok (success oid), (st ++ [Document oid d])%list,
                 (gate_log env ++ [ReadJson; Dispatch; InsertOne d])%list)
            | Failed msg =>
                (Ok (database_error (StoreError msg)), st,
                 (gate_log env ++ [ReadJson; Dispatch; InsertOne d])%list)
            end
        end
      else (Ok no_payload, st, (gate_log env ++ [ReadJson])%list)
  end.

(** Sample data for the examples. *)
Definition sample_id : ObjectId :=
  [x50; x7f; x1f; x77; xbc; xf8; x6c; xd7; x99; x43; x90; x11].

Arguments normalize : simpl never.
Arguments verify_webhook_signature : simpl never.

(* ================================================================= *)
(** ** Configuration, and deliveries in sequence *)

Module Config.

(** [os.environ] once [load_dotenv()] has run. *)
Definition environ := list (string * string).

(** [os.environ.get(name)]. *)
Fixpoint get (name : string) (env : environ) : option string :=
  match env with
  | [] => None
  | (k, v) :: rest => if k =? name then Some v else get name rest
  end.

(** The class attributes of [Config]. *)
Record t : Type := Make {
  SECRET_KEY : option string;
  MONGO_URI : option string;
  WEBHOOK_SECRET : option string
}.

Definition load (env : environ) : t :=
  Make (get "SECRET_KEY" env) (get "MONGO_URI" env) (get "WEBHOOK_SECRET" env).

End Config.

(** What [receiver] reads while the application built by [create_app] serves:
    [current_app.config.get('WEBHOOK_SECRET')] is the attribute loaded by
    [app.config.from_object('config.Config')]. *)
Definition serving (cfg : Config.t) (now : string) (reply : store_reply)
  : environment :=
  Environment (Config.WEBHOOK_SECRET cfg) now reply.

(** Deliveries handled one after the other on the same collection. *)
Fixpoint deliver (batch : list (environment * request)) (st : collection)
  : collection :=
  match batch with
  | [] => st
  | (env, req) :: rest => deliver rest (snd (fst (receiver env req st)))
  end.

(** The same request with another signature header. *)
Definition with_signature (req : request) (signature : option string)
  : request :=
  Request (header_event req) signature (request_data req) (request_json req).


(* ================================================================= *)
(** * Properties *)

(** ** Text lemmas *)

(** Test vectors: FIPS 180-4 for SHA-256, and the signature GitHub's
    documentation gives for HMAC. *)
Example sha256_abc :
  hex_of_bytes (Sha256.sha256 (ascii_bytes "abc"))
  = "ba7816bf8f01cfea414140de5dae2223b00361a396177a9cb410ff61f20015ad".
Proof. vm_compute. reflexivity. Qed.

Example hmac_github_documentation :
  hex_of_bytes (Sha256.hmac (ascii_bytes "It's a Secret to Everybody")
                            (ascii_bytes "Hello, World!"))
  = "757107ea0eb2509fc211221cce984b8a37570b6d7586c22c46f4379c8b043e17".
Proof. vm_compute. reflexivity. Qed.

Lemma hex_digit_ascii (n : N) : is_ascii_char (hex_digit n) = true.
Proof.
  destruct n as [|p]; [reflexivity|].
  do 5 (try (destruct p as [p|p|]; try reflexivity)).
Qed.

Lemma hex_of_bytes_ascii (bs : bytes) : is_ascii (hex_of_bytes bs) = true.
Proof.
  induction bs as [|b bs IH]; simpl; [reflexivity|].
  now rewrite !hex_digit_ascii, IH.
Qed.

Lemma is_ascii_app (a b : string) :
  is_ascii (a ++ b) = is_ascii a && is_ascii b.
Proof.
  induction a as [|c a IH]; simpl; [reflexivity|].
  now rewrite IH, andb_assoc.
Qed.

Lemma expected_signature_ascii (key : string) (payload_body : bytes) :
  is_ascii (expected_signature key payload_body) = true.
Proof.
  unfold expected_signature.
  rewrite is_ascii_app, hex_of_bytes_ascii. reflexivity.
Qed.

Lemma expected_signature_nonempty (key : string) (payload_body : bytes) :
  expected_signature key payload_body <> "".
Proof. unfold expected_signature. cbn [append]. discriminate. Qed.

(** [compare_digest] answers [True] exactly on equal texts when one side is
    ASCII. *)
Lemma compare_digest_true (a b : string) :
  is_ascii a = true -> (compare_digest a b = Ok true <-> b = a).
Proof.
  intros Ha. unfold compare_digest. rewrite Ha. simpl.
  destruct (is_ascii b) eqn:Hb.
  - split.
    + intros H. injection H as H. apply String.eqb_eq in H. congruence.
    + intros ->. now rewrite String.eqb_refl.
  - split; [discriminate|]. intros ->. congruence.
Qed.

(* ================================================================= *)
(** ** Signature verification *)

(** C1.  For every body, optional signature header and optional secret:
    [verify_webhook_signature] returns true when the secret is absent, empty
    or the placeholder; with any other secret it returns false when the header
    is absent, and it returns true exactly when the header is ["sha256="]
    followed by the lowercase hexadecimal HMAC-SHA256 of the body keyed by the
    (UTF-8 encoded) secret. *)
Theorem verify_webhook_signature_spec
    (payload_body : bytes) (signature_header secret : option string) :
  ((secret = None \/ secret = Some "" \/ secret = Some placeholder_secret) ->
   verify_webhook_signature payload_body signature_header secret = Ok true)
  /\
  (forall key, secret = Some key -> key <> "" -> key <> placeholder_secret ->
     (signature_header = None ->
      verify_webhook_signature payload_body signature_header secret = Ok false)
     /\
     (verify_webhook_signature payload_body signature_header secret = Ok true
      <-> signature_header =
          Some ("sha256=" ++ hex_of_bytes (Sha256.hmac (encode_utf8 key) payload_body)))).
Proof.
  split.
  - intros [-> | [-> | ->]]; reflexivity.
  - intros key -> Hne Hph. unfold verify_webhook_signature.
    apply String.eqb_neq in Hne, Hph. rewrite Hne, Hph. cbn [orb].
    split; [now intros ->|].
    destruct signature_header as [header|]; [|split; discriminate].
    destruct (header =? "") eqn:He.
    + apply String.eqb_eq in He. subst header. split; [discriminate|].
      intros H. exfalso.
      apply (expected_signature_nonempty key payload_body).
      unfold expected_signature. congruence.
    + fold (expected_signature key payload_body).
      pose proof (compare_digest_true (expected_signature key payload_body)
                    header (expected_signature_ascii key payload_body)) as Hcmp.
      split.
      * intros H. f_equal. now apply Hcmp.
      * intros H. apply Hcmp. congruence.
Qed.

(** The signature example of GitHub's documentation is accepted. *)
Lemma verify_webhook_signature_spec_witness :
  verify_webhook_signature (ascii_bytes "Hello, World!")
    (Some "sha256=757107ea0eb2509fc211221cce984b8a37570b6d7586c22c46f4379c8b043e17")
    (Some "It's a Secret to Everybody") = Ok true.
Proof.
  refine (proj2 (proj2 (proj2 (verify_webhook_signature_spec
                  (ascii_bytes "Hello, World!")
                  (Some "sha256=757107ea0eb2509fc211221cce984b8a37570b6d7586c22c46f4379c8b043e17")
                  (Some "It's a Secret to Everybody"))
               "It's a Secret to Everybody" eq_refl _ _)) _).
  - discriminate.
  - discriminate.
  - vm_compute. reflexivity.
Defined.


Lemma verify_raises_on_non_ascii_header
    (payload_body : bytes) (header key : string) :
  key <> "" -> key <> placeholder_secret ->
  is_ascii header = false ->
  verify_webhook_signature payload_body (Some header) (Some key)
  = Raise (TypeError "comparing strings with non-ASCII characters is not supported").
Proof.
  intros Hne Hph Hascii. unfold verify_webhook_signature.
  apply String.eqb_neq in Hne, Hph. rewrite Hne, Hph. cbn [orb].
  destruct (header =? "") eqn:He.
  - apply String.eqb_eq in He. subst header. discriminate Hascii.
  - unfold compare_digest. rewrite Hascii, andb_false_r. reflexivity.
Qed.

(* ================================================================= *)
(** ** Normalization *)

Lemma bind_Ok {A B} (c : result A) (k : A -> result B) (b : B) :
  bind c k = Ok b -> exists a, c = Ok a /\ k a = Ok b.
Proof. destruct c as [a|e]; simpl; [eauto|discriminate]. Qed.

Lemma dict_get_object (fields : list (string * json)) (k : string) (d : json) :
  dict_get (JObj fields) k d = Ok (field_or d [k] (JObj fields)).
Proof.
  unfold dict_get, field_or. simpl. now destruct (assoc k fields).
Qed.

(** Reading [k2] under [k1], with [{}] standing in for an absent [k1]. *)
Lemma dict_get_nested (v : json) (k1 k2 : string) (d : json) :
  is_object v = true -> object_or_absent [k1] v = true ->
  bind (dict_get v k1 (JObj [])) (fun x => dict_get x k2 d)
  = Ok (field_or d [k1; k2] v).
Proof.
  destruct v as [| | | | | |fields]; try discriminate. intros _.
  unfold object_or_absent, field_or, dict_get. simpl.
  destruct (assoc k1 fields) as [x|]; simpl; [|reflexivity].
  destruct x; try discriminate. intros _. simpl.
  now destruct (assoc k2 fields0).
Qed.

Lemma pr_of_object (p : json) :
  pull_request_shape p = true -> is_object (pr_of p) = true.
Proof.
  unfold pull_request_shape, pr_of, object_or_absent, field_or.
  intros H. apply andb_prop in H as [_ H].
  now destruct (lookup ["pull_request"] p).
Qed.

Lemma lookup_under_pr (p : json) (k : string) (rest : list string) :
  is_object p = true ->
  lookup ("pull_request" :: k :: rest) p = lookup (k :: rest) (pr_of p).
Proof.
  destruct p as [| | | | | |fields]; try discriminate. intros _.
  unfold pr_of, field_or. cbn [lookup].
  destruct (assoc "pull_request" fields) as [x|]; reflexivity.
Qed.

Lemma field_or_under_pr (p : json) (d : json) (k : string) (rest : list string) :
  is_object p = true ->
  field_or d ("pull_request" :: k :: rest) p = field_or d (k :: rest) (pr_of p).
Proof. intros H. unfold field_or. now rewrite lookup_under_pr. Qed.

Lemma object_or_absent_under_pr (p : json) (k : string) :
  is_object p = true ->
  object_or_absent ["pull_request"; k] p = object_or_absent [k] (pr_of p).
Proof. intros H. unfold object_or_absent. now rewrite lookup_under_pr. Qed.

Lemma dict_get_pr (p : json) :
  pull_request_shape p = true ->
  dict_get p "pull_request" (JObj []) = Ok (pr_of p).
Proof.
  unfold pull_request_shape. intros H. apply andb_prop in H as [H _].
  destruct p; try discriminate. apply dict_get_object.
Qed.

Lemma dict_get_action (p : json) :
  is_object p = true -> dict_get p "action" JNull = Ok (action_of p).
Proof. destruct p; try discriminate. intros _. apply dict_get_object. Qed.

Lemma dict_get_pr_field (p : json) (k : string) (d : json) :
  pull_request_shape p = true ->
  dict_get (pr_of p) k d = Ok (field_or d ["pull_request"; k] p).
Proof.
  intros H. pose proof (pr_of_object p H) as Hobj.
  unfold pull_request_shape in H. apply andb_prop in H as [H _].
  rewrite field_or_under_pr by assumption.
  destruct (pr_of p); try discriminate. apply dict_get_object.
Qed.

Lemma dict_get_pr_nested (p : json) (k1 k2 : string) (d : json) :
  pull_request_shape p = true ->
  object_or_absent ["pull_request"; k1] p = true ->
  bind (dict_get (pr_of p) k1 (JObj [])) (fun x => dict_get x k2 d)
  = Ok (field_or d ["pull_request"; k1; k2] p).
Proof.
  intros H Hk. pose proof (pr_of_object p H) as Hobj.
  unfold pull_request_shape in H. apply andb_prop in H as [H _].
  rewrite object_or_absent_under_pr in Hk by assumption.
  rewrite field_or_under_pr by assumption.
  now apply dict_get_nested.
Qed.

Lemma normalize_push_shape (now : string) (p : json) :
  push_shape p = true ->
  normalize (Some "push") now p = Ok (Some (push_event now p)).
Proof.
  destruct p as [| | | | | |fields]; try discriminate.
  unfold push_shape, object_or_absent, text_or_absent, normalize, push_event,
    field_or.
  cbn.
  destruct (assoc "pusher" fields) as [[| | | | | |pusher]|]; try discriminate;
    destruct (assoc "ref" fields) as [[| | | |ref| |]|]; try discriminate;
    intros _; cbn.
  all: destruct (assoc "after" fields); cbn; try reflexivity.
  all: destruct (assoc "name" pusher); reflexivity.
Qed.

Lemma normalize_opened_shape (now : string) (p : json) :
  opened_shape p = true -> opened_or_reopened p = true ->
  normalize (Some "pull_request") now p = Ok (Some (pull_request_event now p)).
Proof.
  unfold opened_shape, branches_shape, opened_or_reopened.
  intros H Hact.
  apply andb_prop in H as [H Hbr]. apply andb_prop in H as [Hpr Huser].
  apply andb_prop in Hbr as [Hhead Hbase].
  assert (Hobj : is_object p = true)
    by (unfold pull_request_shape in Hpr; now apply andb_prop in Hpr).
  unfold normalize. cbn [opt_eq_str String.eqb Ascii.eqb Bool.eqb].
  rewrite dict_get_action by assumption. cbn [bind].
  rewrite dict_get_pr by assumption. cbn [bind].
  rewrite Hact.
  rewrite dict_get_pr_field by assumption. cbn [bind].
  pose proof (dict_get_pr_nested p "user" "login" (JStr "Unknown") Hpr Huser) as Hu.
  pose proof (dict_get_pr_nested p "head" "ref" (JStr "unknown") Hpr Hhead) as Hh.
  pose proof (dict_get_pr_nested p "base" "ref" (JStr "unknown") Hpr Hbase) as Hb.
  destruct (dict_get (pr_of p) "user" (JObj [])); [|discriminate].
  cbn [bind] in Hu |- *. rewrite Hu. cbn [bind].
  destruct (dict_get (pr_of p) "head" (JObj [])); [|discriminate].
  cbn [bind] in Hh |- *. rewrite Hh. cbn [bind].
  destruct (dict_get (pr_of p) "base" (JObj [])); [|discriminate].
  cbn [bind] in Hb |- *. rewrite Hb. cbn [bind].
  reflexivity.
Qed.

Lemma opened_not_closed (p : json) :
  opened_or_reopened p = true -> eq_str (action_of p) "closed" = false.
Proof.
  unfold opened_or_reopened. destruct (action_of p); try discriminate.
  cbn [eq_str]. intros H. apply orb_prop in H as [H|H];
    apply String.eqb_eq in H; subst; reflexivity.
Qed.

Lemma normalize_merge_shape (now : string) (p : json) :
  merge_shape p = true -> closed_and_merged p = true ->
  normalize (Some "pull_request") now p = Ok (Some (merge_event now p)).
Proof.
  unfold merge_shape, branches_shape, closed_and_merged.
  intros H Hact.
  apply andb_prop in H as [H Hbr]. apply andb_prop in H as [Hpr Hby].
  apply andb_prop in Hbr as [Hhead Hbase].
  apply andb_prop in Hact as [Hclosed Hmerged].
  assert (Hobj : is_object p = true)
    by (unfold pull_request_shape in Hpr; now apply andb_prop in Hpr).
  assert (Hopen : opened_or_reopened p = false).
  { destruct (opened_or_reopened p) eqn:E; [|reflexivity].
    apply opened_not_closed in E. congruence. }
  unfold opened_or_reopened in Hopen.
  unfold normalize. cbn [opt_eq_str String.eqb Ascii.eqb Bool.eqb].
  rewrite dict_get_action by assumption. cbn [bind].
  rewrite dict_get_pr by assumption. cbn [bind].
  rewrite Hopen, Hclosed.
  rewrite dict_get_pr_field by assumption. cbn [bind].
  rewrite Hmerged.
  rewrite dict_get_pr_field by assumption. cbn [bind].
  pose proof (dict_get_pr_nested p "merged_by" "login" (JStr "Unknown") Hpr Hby) as Hu.
  pose proof (dict_get_pr_nested p "head" "ref" (JStr "unknown") Hpr Hhead) as Hh.
  pose proof (dict_get_pr_nested p "base" "ref" (JStr "unknown") Hpr Hbase) as Hb.
  destruct (dict_get (pr_of p) "merged_by" (JObj [])); [|discriminate].
  cbn [bind] in Hu |- *. rewrite Hu. cbn [bind].
  destruct (dict_get (pr_of p) "head" (JObj [])); [|discriminate].
  cbn [bind] in Hh |- *. rewrite Hh. cbn [bind].
  destruct (dict_get (pr_of p) "base" (JObj [])); [|discriminate].
  cbn [bind] in Hb |- *. rewrite Hb. cbn [bind].
  reflexivity.
Qed.

(** A pull request that is neither opened, reopened nor a merge is not
    handled. *)
Lemma normalize_pull_request_other (now : string) (p : json) :
  pull_request_shape p = true ->
  opened_or_reopened p = false -> closed_and_merged p = false ->
  normalize (Some "pull_request") now p = Ok None.
Proof.
  unfold opened_or_reopened, closed_and_merged. intros Hpr Hopen Hmerge.
  assert (Hobj : is_object p = true)
    by (unfold pull_request_shape in Hpr; now apply andb_prop in Hpr).
  unfold normalize. cbn [opt_eq_str String.eqb Ascii.eqb Bool.eqb].
  rewrite dict_get_action by assumption. cbn [bind].
  rewrite dict_get_pr by assumption. cbn [bind].
  rewrite Hopen.
  destruct (eq_str (action_of p) "closed"); [|reflexivity].
  rewrite dict_get_pr_field by assumption. cbn [bind].
  cbn [andb] in Hmerge. now rewrite Hmerge.
Qed.

(** An action outside opened, reopened and closed never reads
    [pull_request]. *)
Lemma normalize_pull_request_unlisted (now : string) (p : json) :
  is_object p = true ->
  opened_or_reopened p = false -> eq_str (action_of p) "closed" = false ->
  normalize (Some "pull_request") now p = Ok None.
Proof.
  unfold opened_or_reopened. intros Hobj Hopen Hclosed.
  unfold normalize. cbn [opt_eq_str String.eqb Ascii.eqb Bool.eqb].
  rewrite dict_get_action by assumption. cbn [bind].
  destruct p as [| | | | | |fields]; try discriminate.
  rewrite dict_get_object. cbn [bind].
  now rewrite Hopen, Hclosed.
Qed.

Lemma normalize_other_type (event_type : option string) (now : string) (p : json) :
  opt_eq_str event_type "push" = false ->
  opt_eq_str event_type "pull_request" = false ->
  normalize event_type now p = Ok None.
Proof. intros H1 H2. unfold normalize. now rewrite H1, H2. Qed.

(** *** From a result back to the shape of the payload *)

Lemma dict_get_Ok_object (v : json) (k : string) (d x : json) :
  dict_get v k d = Ok x -> is_object v = true.
Proof. destruct v; simpl; congruence. Qed.

Lemma nested_Ok_shape (v : json) (k1 k2 : string) (d x y : json) :
  dict_get v k1 (JObj []) = Ok x -> dict_get x k2 d = Ok y ->
  object_or_absent [k1] v = true.
Proof.
  intros H1 H2. apply dict_get_Ok_object in H2.
  destruct v as [| | | | | |fields]; try discriminate.
  unfold object_or_absent. simpl in *.
  destruct (assoc k1 fields); [|reflexivity]. congruence.
Qed.

Lemma method_replace_Ok (v : json) (old new : string) (x : json) :
  method_replace v old new = Ok x -> is_text v = true.
Proof. destruct v; simpl; congruence. Qed.

Lemma pull_request_shape_intro (p : json) :
  is_object p = true -> is_object (pr_of p) = true ->
  pull_request_shape p = true.
Proof.
  intros Hp Hpr. unfold pull_request_shape. rewrite Hp. cbn [andb].
  unfold pr_of, field_or, object_or_absent in *.
  now destruct (lookup ["pull_request"] p).
Qed.

Tactic Notation "step" hyp(H) ident(x) ident(Hx) :=
  apply bind_Ok in H as (x & Hx & H).

Lemma normalize_push_inv (now : string) (p : json) (r : option event_data) :
  normalize (Some "push") now p = Ok r -> push_shape p = true.
Proof.
  unfold normalize. cbn [opt_eq_str String.eqb Ascii.eqb Bool.eqb]. intros H.
  step H after Hafter. step H pusher Hpusher. step H name Hname.
  step H ref Href. step H branch Hbranch.
  pose proof (dict_get_Ok_object _ _ _ _ Hafter) as Hobj.
  pose proof (nested_Ok_shape _ _ _ _ _ _ Hpusher Hname) as Hshape.
  apply method_replace_Ok in Hbranch.
  unfold push_shape. rewrite Hobj, Hshape. cbn [andb].
  destruct p as [| | | | | |fields]; try discriminate.
  rewrite dict_get_object in Href. injection Href as <-.
  unfold text_or_absent, field_or in *.
  now destruct (lookup ["ref"] (JObj fields)).
Qed.

Lemma normalize_pull_request_inv (now : string) (p : json) (e : event_data) :
  normalize (Some "pull_request") now p = Ok (Some e) ->
  (opened_or_reopened p = true /\ opened_shape p = true)
  \/ (opened_or_reopened p = false /\ closed_and_merged p = true
      /\ merge_shape p = true).
Proof.
  unfold normalize. cbn [opt_eq_str String.eqb Ascii.eqb Bool.eqb]. intros H.
  step H act Hact. step H pr Hpr.
  pose proof (dict_get_Ok_object _ _ _ _ Hact) as Hobj.
  rewrite dict_get_action in Hact by assumption. injection Hact as <-.
  assert (Hprof : pr = pr_of p).
  { destruct p as [| | | | | |fields]; try discriminate.
    rewrite dict_get_object in Hpr. now injection Hpr as <-. }
  subst pr. fold (opened_or_reopened p) in H.
  destruct (opened_or_reopened p) eqn:Hopen.
  - left. split; [reflexivity|].
    step H pid Hid. step H user Huser. step H login Hlogin.
    step H head Hhead. step H head_ref Hhead_ref.
    step H base Hbase. step H base_ref Hbase_ref.
    pose proof (pull_request_shape_intro p Hobj
                  (dict_get_Ok_object _ _ _ _ Hid)) as Hshape.
    unfold opened_shape, branches_shape. rewrite Hshape.
    rewrite !object_or_absent_under_pr by assumption.
    rewrite (nested_Ok_shape _ _ _ _ _ _ Huser Hlogin).
    rewrite (nested_Ok_shape _ _ _ _ _ _ Hhead Hhead_ref).
    rewrite (nested_Ok_shape _ _ _ _ _ _ Hbase Hbase_ref).
    reflexivity.
  - right. split; [reflexivity|].
    step H is_merge Hmerge.
    destruct is_merge; [|discriminate].
    destruct (eq_str (action_of p) "closed") eqn:Hclosed; [|discriminate].
    step Hmerge merged Hmerged.
    pose proof (pull_request_shape_intro p Hobj
                  (dict_get_Ok_object _ _ _ _ Hmerged)) as Hshape.
    rewrite dict_get_pr_field in Hmerged by assumption.
    injection Hmerged as <-. injection Hmerge as Hmerge.
    unfold closed_and_merged. rewrite Hclosed, Hmerge.
    split; [reflexivity|].
    step H sha Hsha. step H merged_by Hmerged_by. step H login Hlogin.
    step H head Hhead. step H head_ref Hhead_ref.
    step H base Hbase. step H base_ref Hbase_ref.
    unfold merge_shape, branches_shape. rewrite Hshape.
    rewrite !object_or_absent_under_pr by assumption.
    rewrite (nested_Ok_shape _ _ _ _ _ _ Hmerged_by Hlogin).
    rewrite (nested_Ok_shape _ _ _ _ _ _ Hhead Hhead_ref).
    rewrite (nested_Ok_shape _ _ _ _ _ _ Hbase Hbase_ref).
    reflexivity.
Qed.

(** Every event [normalize] produces is one of the three rows. *)
Lemma normalize_event_inv (event_type : option string) (now : string)
    (p : json) (e : event_data) :
  normalize event_type now p = Ok (Some e) ->
  (opt_eq_str event_type "push" = true /\ push_shape p = true
   /\ e = push_event now p)
  \/ (opt_eq_str event_type "pull_request" = true
      /\ opened_or_reopened p = true /\ opened_shape p = true
      /\ e = pull_request_event now p)
  \/ (opt_eq_str event_type "pull_request" = true
      /\ opened_or_reopened p = false /\ closed_and_merged p = true
      /\ merge_shape p = true /\ e = merge_event now p).
Proof.
  intros H.
  destruct (opt_eq_str event_type "push") eqn:Hpush.
  - left. destruct event_type as [t|]; [|discriminate].
    apply String.eqb_eq in Hpush. subst t.
    pose proof (normalize_push_inv _ _ _ H) as Hshape.
    rewrite normalize_push_shape in H by assumption.
    repeat split; congruence.
  - destruct (opt_eq_str event_type "pull_request") eqn:Hpr.
    + right. destruct event_type as [t|]; [|discriminate].
      apply String.eqb_eq in Hpr. subst t.
      destruct (normalize_pull_request_inv _ _ _ H)
        as [[Hopen Hshape] | (Hopen & Hmerged & Hshape)].
      * left. rewrite normalize_opened_shape in H by assumption.
        repeat split; congruence.
      * right. rewrite normalize_merge_shape in H by assumption.
        repeat split; congruence.
    + rewrite normalize_other_type in H by assumption. discriminate.
Qed.

(** ** [str.replace] against stripping a leading prefix *)

Lemma replace_no_occurrence (old new s : string) :
  occurs old s = false -> replace_from old new 0 s = s.
Proof.
  induction s as [|c s IH]; [reflexivity|].
  cbn [occurs replace_from]. intros H.
  apply orb_false_elim in H as [Hp Ho].
  rewrite Hp. now rewrite IH.
Qed.

Lemma replace_skip (old new x rest : string) :
  replace_from old new (String.length x) (x ++ rest)
  = replace_from old new 0 rest.
Proof.
  induction x as [|c x IH]; cbn [String.length append].
  - reflexivity.
  - cbn [replace_from]. exact IH.
Qed.

Lemma prefix_split (p s : string) :
  prefix p s = true -> s = p ++ drop (String.length p) s.
Proof.
  revert s. induction p as [|a p IH]; intros s H.
  - now destruct s.
  - destruct s as [|b s]; [discriminate|].
    cbn [prefix] in H. destruct (ascii_dec a b) as [->|]; [|discriminate].
    cbn [String.length drop append]. f_equal. now apply IH.
Qed.

(** Where the branch name holds no further occurrence, replacing every
    occurrence and stripping the leading prefix agree. *)
Lemma str_replace_strip_leading (old s : string) :
  old <> "" ->
  occurs old (strip_leading old s) = false ->
  str_replace old "" s = strip_leading old s.
Proof.
  intros Hne. unfold strip_leading, str_replace.
  destruct (prefix old s) eqn:Hp.
  - intros Hocc. pose proof (prefix_split _ _ Hp) as Hs.
    destruct old as [|a old]; [congruence|].
    destruct s as [|b s]; [discriminate|].
    cbn [replace_from]. rewrite Hp. cbn [append].
    cbn [String.length drop] in *. cbn [append] in Hs.
    injection Hs as Hb Hs.
    replace (S (String.length old) - 1) with (String.length old) by lia.
    rewrite Hs at 1. rewrite replace_skip.
    now apply replace_no_occurrence.
  - apply replace_no_occurrence.
Qed.

(* ================================================================= *)
(** ** What the dispatch raises *)






(* ================================================================= *)
(** ** Claims on normalization *)




Lemma lookup_under_pull_request_shape (p : json) (k : string) (v : json) :
  lookup ["pull_request"; k] p = Some v -> pull_request_shape p = true.
Proof.
  destruct p as [| | | | | |fields]; try discriminate.
  unfold pull_request_shape, object_or_absent. cbn [lookup is_object andb].
  destruct (assoc "pull_request" fields) as [[| | | | | |pr]|];
    try discriminate; reflexivity.
Qed.

Lemma truthy_under_pull_request_shape (p : json) (k : string) :
  truthy (field_or JNull ["pull_request"; k] p) = true ->
  pull_request_shape p = true.
Proof.
  unfold field_or.
  destruct (lookup ["pull_request"; k] p) as [v|] eqn:Hlookup;
    [|discriminate].
  intros _. exact (lookup_under_pull_request_shape _ _ _ Hlookup).
Qed.

Lemma pull_request_shape_object (p : json) :
  pull_request_shape p = true -> is_object p = true.
Proof. unfold pull_request_shape. intros H. now apply andb_prop in H. Qed.






(** C3 (as stated, refuted).  A push whose [pusher] is [null] yields no
    event, and [replace] removes every occurrence of [refs/heads/], not the
    leading one only. *)
Lemma normalize_push_counterexample :
  normalize (Some "push") "2024-01-01T12:00:00.000000"
            (JObj [("after", JStr "sha1"); ("pusher", JNull);
                   ("ref", JStr "refs/heads/main")])
  = Raise (AttributeError "'NoneType' object has no attribute 'get'")
  /\ normalize (Some "push") "2024-01-01T12:00:00.000000"
            (JObj [("after", JStr "sha1");
                   ("pusher", JObj [("name", JStr "alice")]);
                   ("ref", JStr "refs/heads/refs/heads/main")])
     = Ok (Some (EventData (JStr "sha1") (JStr "alice") "PUSH" JNull
                           (JStr "main") "2024-01-01T12:00:00.000000"))
  /\ strip_leading "refs/heads/" "refs/heads/refs/heads/main"
     = "refs/heads/main".
Proof. repeat split. Qed.

(** C3 (amended).  For every push payload that is an object whose [pusher]
    is absent or an object and whose [ref] is absent or a string,
    normalization yields an event with action PUSH, [request_id] the value of
    [after] or "unknown", [author] the value of [pusher.name] or "Unknown",
    no [from_branch], and [to_branch] the empty string when [ref] is absent
    and [ref] with its leading [refs/heads/] stripped when the stripped name
    holds no further [refs/heads/]. *)
Theorem normalize_push (now : string) (p : json) :
  push_shape p = true ->
  exists e,
    normalize (Some "push") now p = Ok (Some e)
    /\ action e = "PUSH"
    /\ request_id e = field_or (JStr "unknown") ["after"] p
    /\ author e = field_or (JStr "Unknown") ["pusher"; "name"] p
    /\ from_branch e = JNull
    /\ timestamp e = now
    /\ (lookup ["ref"] p = None -> to_branch e = JStr "")
    /\ (forall ref, lookup ["ref"] p = Some (JStr ref) ->
          occurs "refs/heads/" (strip_leading "refs/heads/" ref) = false ->
          to_branch e = JStr (strip_leading "refs/heads/" ref)).
Proof.
  intros Hshape. exists (push_event now p).
  split; [now apply normalize_push_shape|].
  unfold push_event. cbn [action request_id author from_branch timestamp to_branch].
  repeat (split; [reflexivity|]).
  split.
  - intros Href. unfold field_or. now rewrite Href.
  - intros ref Href Hocc. unfold field_or. rewrite Href. cbn [text].
    f_equal. apply str_replace_strip_leading; [discriminate|assumption].
Qed.

(** The push example of the specification. *)
Lemma normalize_push_witness :
  normalize (Some "push") "2024-01-01T12:00:00.000000"
            (JObj [("after", JStr "sha1");
                   ("pusher", JObj [("name", JStr "alice")]);
                   ("ref", JStr "refs/heads/main")])
  = Ok (Some (EventData (JStr "sha1") (JStr "alice") "PUSH" JNull
                        (JStr "main") "2024-01-01T12:00:00.000000")).
Proof.
  destruct (normalize_push "2024-01-01T12:00:00.000000"
              (JObj [("after", JStr "sha1");
                     ("pusher", JObj [("name", JStr "alice")]);
                     ("ref", JStr "refs/heads/main")]) eq_refl)
    as (e & Hnorm & Hact & Hid & Hauthor & Hfrom & Htime & _ & Hto).
  specialize (Hto "refs/heads/main" eq_refl eq_refl).
  rewrite Hnorm. destruct e. cbn in *. subst. reflexivity.
Defined.

Lemma closed_not_opened (p : json) :
  eq_str (action_of p) "closed" = true -> opened_or_reopened p = false.
Proof.
  intros H. destruct (opened_or_reopened p) eqn:E; [|reflexivity].
  apply opened_not_closed in E. congruence.
Qed.

(** C4 (as stated, refuted).  The merge test is the truth value of
    [pr.get('merged')]: a closed pull request whose [merged] is the string
    "yes" is recorded as a MERGE; and with [merged] true, a [merged_by] that
    is [null] makes the merge branch raise instead of yielding an event. *)
Lemma normalize_merge_counterexample :
  normalize (Some "pull_request") "2024-01-01T12:00:00.000000"
            (JObj [("action", JStr "closed");
                   ("pull_request", JObj [("merged", JStr "yes")])])
  = Ok (Some (EventData (JStr "unknown") (JStr "Unknown") "MERGE"
                        (JStr "unknown") (JStr "unknown")
                        "2024-01-01T12:00:00.000000"))
  /\ normalize (Some "pull_request") "2024-01-01T12:00:00.000000"
            (JObj [("action", JStr "closed");
                   ("pull_request", JObj [("merged", JBool true);
                                          ("merged_by", JNull)])])
     = Raise (AttributeError "'NoneType' object has no attribute 'get'").
Proof. split; reflexivity. Qed.

(** C4 (amended).  For every payload with the event type pull_request,
    normalization yields an event with action MERGE exactly when [action] is
    "closed", [pull_request.merged] is truthy, and [merged_by], [head] and
    [base] under [pull_request] are each absent or an object; the event then
    carries [merge_commit_sha] or "unknown", [merged_by.login] or "Unknown",
    [head.ref] or "unknown" and [base.ref] or "unknown"; and a closed pull
    request whose [merged] is [false] yields nothing, whatever else it
    holds. *)
Theorem normalize_merge (now : string) (p : json) :
  ((exists e, normalize (Some "pull_request") now p = Ok (Some e)
              /\ action e = "MERGE")
   <-> (eq_str (field_or JNull ["action"] p) "closed" = true
        /\ truthy (field_or JNull ["pull_request"; "merged"] p) = true
        /\ object_or_absent ["pull_request"; "merged_by"] p = true
        /\ object_or_absent ["pull_request"; "head"] p = true
        /\ object_or_absent ["pull_request"; "base"] p = true))
  /\ (forall e, normalize (Some "pull_request") now p = Ok (Some e) ->
      action e = "MERGE" ->
      e = EventData
            (field_or (JStr "unknown") ["pull_request"; "merge_commit_sha"] p)
            (field_or (JStr "Unknown") ["pull_request"; "merged_by"; "login"] p)
            "MERGE"
            (field_or (JStr "unknown") ["pull_request"; "head"; "ref"] p)
            (field_or (JStr "unknown") ["pull_request"; "base"; "ref"] p)
            now)
  /\ (eq_str (field_or JNull ["action"] p) "closed" = true ->
      lookup ["pull_request"; "merged"] p = Some (JBool false) ->
      normalize (Some "pull_request") now p = Ok None).
Proof.
  fold (action_of p). split; [|split].
  - split.
    + intros (e & Hnorm & Hact).
      destruct (normalize_event_inv _ _ _ _ Hnorm)
        as [(Hpush & _) | [(_ & _ & _ & ->) | (_ & _ & Hmerged & Hshape & _)]].
      * discriminate Hpush.
      * discriminate Hact.
      * unfold closed_and_merged in Hmerged.
        apply andb_prop in Hmerged as [Hclosed Htruthy].
        unfold merge_shape, branches_shape in Hshape.
        apply andb_prop in Hshape as [Hshape Hbranches].
        apply andb_prop in Hshape as [_ Hby].
        apply andb_prop in Hbranches as [Hhead Hbase]. auto.
    + intros (Hclosed & Htruthy & Hby & Hhead & Hbase).
      exists (merge_event now p). split; [|reflexivity].
      apply normalize_merge_shape.
      * unfold merge_shape, branches_shape.
        rewrite (truthy_under_pull_request_shape _ _ Htruthy).
        now rewrite Hby, Hhead, Hbase.
      * unfold closed_and_merged. now rewrite Hclosed, Htruthy.
  - intros e Hnorm Hact.
    destruct (normalize_event_inv _ _ _ _ Hnorm)
      as [(Hpush & _) | [(_ & _ & _ & ->) | (_ & _ & _ & _ & ->)]].
    + discriminate Hpush.
    + discriminate Hact.
    + reflexivity.
  - intros Hclosed Hfalse.
    apply normalize_pull_request_other.
    + exact (lookup_under_pull_request_shape _ _ _ Hfalse).
    + now apply closed_not_opened.
    + unfold closed_and_merged, field_or. rewrite Hfalse. apply andb_false_r.
Qed.

(** A pull request closed without merging, as GitHub sends it: [merged]
    false, [merged_by] null. *)
Lemma normalize_merge_witness :
  normalize (Some "pull_request") "2024-01-01T12:00:00.000000"
            (JObj [("action", JStr "closed");
                   ("pull_request",
                    JObj [("id", JInt 42);
                          ("merged", JBool false);
                          ("merged_by", JNull);
                          ("merge_commit_sha", JNull);
                          ("head", JObj [("ref", JStr "feat")]);
                          ("base", JObj [("ref", JStr "main")])])])
  = Ok None.
Proof.
  exact (proj2 (proj2 (normalize_merge "2024-01-01T12:00:00.000000"
            (JObj [("action", JStr "closed");
                   ("pull_request",
                    JObj [("id", JInt 42);
                          ("merged", JBool false);
                          ("merged_by", JNull);
                          ("merge_commit_sha", JNull);
                          ("head", JObj [("ref", JStr "feat")]);
                          ("base", JObj [("ref", JStr "main")])])])))
            eq_refl eq_refl).
Defined.

(** The merge example of the specification. *)
Example normalize_merged_pull_request :
  normalize (Some "pull_request") "2024-01-01T12:00:00.000000"
            (JObj [("action", JStr "closed");
                   ("pull_request",
                    JObj [("merged", JBool true);
                          ("merge_commit_sha", JStr "sha9");
                          ("merged_by", JObj [("login", JStr "carol")]);
                          ("head", JObj [("ref", JStr "feat")]);
                          ("base", JObj [("ref", JStr "main")])])])
  = Ok (Some (EventData (JStr "sha9") (JStr "carol") "MERGE"
                        (JStr "feat") (JStr "main")
                        "2024-01-01T12:00:00.000000")).
Proof. reflexivity. Qed.

(** C5 (as stated, refuted).  An opened pull request whose [pull_request] is
    [null] yields no event: [pr.get] raises. *)
Lemma normalize_pull_request_counterexample :
  normalize (Some "pull_request") "2024-01-01T12:00:00.000000"
            (JObj [("action", JStr "opened"); ("pull_request", JNull)])
  = Raise (AttributeError "'NoneType' object has no attribute 'get'").
Proof. reflexivity. Qed.

(** C5 (amended).  For every pull_request payload that is an object whose
    [pull_request], and below it [user], [head] and [base], are each absent or
    an object, and whose [action] is "opened" or "reopened", normalization
    yields a PULL_REQUEST event with [request_id] the [str] of
    [pull_request.id] or "unknown", [author] the value of [user.login] or
    "Unknown", [from_branch] the value of [head.ref] or "unknown" and
    [to_branch] the value of [base.ref] or "unknown". *)
Theorem normalize_pull_request (now : string) (p : json) :
  opened_shape p = true ->
  (eq_str (field_or JNull ["action"] p) "opened" = true
   \/ eq_str (field_or JNull ["action"] p) "reopened" = true) ->
  normalize (Some "pull_request") now p
  = Ok (Some (EventData
                (JStr (py_str (field_or (JStr "unknown") ["pull_request"; "id"] p)))
                (field_or (JStr "Unknown") ["pull_request"; "user"; "login"] p)
                "PULL_REQUEST"
                (field_or (JStr "unknown") ["pull_request"; "head"; "ref"] p)
                (field_or (JStr "unknown") ["pull_request"; "base"; "ref"] p)
                now)).
Proof.
  intros Hshape Hact. apply normalize_opened_shape; [assumption|].
  unfold opened_or_reopened, action_of. apply orb_true_iff. exact Hact.
Qed.

(** The pull request example of the specification. *)
Lemma normalize_pull_request_witness :
  normalize (Some "pull_request") "2024-01-01T12:00:00.000000"
            (JObj [("action", JStr "opened");
                   ("pull_request",
                    JObj [("id", JInt 42);
                          ("user", JObj [("login", JStr "bob")]);
                          ("head", JObj [("ref", JStr "feat")]);
                          ("base", JObj [("ref", JStr "main")])])])
  = Ok (Some (EventData (JStr "42") (JStr "bob") "PULL_REQUEST"
                        (JStr "feat") (JStr "main")
                        "2024-01-01T12:00:00.000000")).
Proof.
  exact (normalize_pull_request "2024-01-01T12:00:00.000000"
           (JObj [("action", JStr "opened");
                  ("pull_request",
                   JObj [("id", JInt 42);
                         ("user", JObj [("login", JStr "bob")]);
                         ("head", JObj [("ref", JStr "feat")]);
                         ("base", JObj [("ref", JStr "main")])])])
           eq_refl (or_introl eq_refl)).
Defined.

(* ================================================================= *)
(** ** The webhook endpoint *)

Lemma real_secret_iff (secret : option string) :
  real_secret secret = true
  <-> exists key, secret = Some key /\ key <> "" /\ key <> placeholder_secret.
Proof.
  unfold real_secret. destruct secret as [key|]; cbn [truthy_str opt_eq_str].
  - rewrite andb_true_iff, !negb_true_iff, !String.eqb_neq. split.
    + intros [H1 H2]. eauto.
    + intros (k & [= <-] & H1 & H2). auto.
  - split; [discriminate|]. intros (k & H & _). discriminate.
Qed.

(** Without a real secret the verifier is in bypass mode. *)
Lemma verify_bypass (payload_body : bytes) (header secret : option string) :
  real_secret secret = false ->
  verify_webhook_signature payload_body header secret = Ok true.
Proof.
  unfold real_secret, verify_webhook_signature.
  destruct secret as [key|]; [|reflexivity].
  cbn [truthy_str opt_eq_str].
  destruct (key =? ""); [reflexivity|].
  destruct (key =? placeholder_secret); [reflexivity|discriminate].
Qed.

Lemma receiver_gate_passed (env : environment) (req : request) (st : collection) :
  verify_webhook_signature (request_data req) (header_signature req)
                           (WEBHOOK_SECRET env) = Ok true ->
  receiver env req st = after_gate env req st.
Proof.
  intros Hverify. unfold receiver, after_gate, gate_log. cbv zeta.
  unfold mbind, try_except, insert_one, tell, lift, ret.
  destruct (real_secret (WEBHOOK_SECRET env)); rewrite ?Hverify; cbn [negb app];
    destruct (request_json req) as [p|]; try reflexivity;
    destruct (truthy p); cbn [negb]; try reflexivity;
    destruct (normalize (header_event req) (utcnow_isoformat env) p) as [[d|]|];
    try reflexivity.
  all: try (destruct (insert_reply env); reflexivity).
  all: destruct (dict_get p "action" (JStr "no action")); reflexivity.
Qed.

Lemma receiver_gate_failed (env : environment) (req : request) (st : collection) :
  real_secret (WEBHOOK_SECRET env) = true ->
  verify_webhook_signature (request_data req) (header_signature req)
                           (WEBHOOK_SECRET env) = Ok false ->
  receiver env req st = (Ok invalid_signature, st, [CallVerify]).
Proof.
  intros Hreal Hverify. unfold receiver. cbv zeta.
  unfold mbind, tell, lift, ret. rewrite Hreal, Hverify. reflexivity.
Qed.

Lemma receiver_gate_raised (env : environment) (req : request) (st : collection)
    (e : exn) :
  real_secret (WEBHOOK_SECRET env) = true ->
  verify_webhook_signature (request_data req) (header_signature req)
                           (WEBHOOK_SECRET env) = Raise e ->
  receiver env req st = (Raise e, st, [CallVerify]).
Proof.
  intros Hreal Hverify. unfold receiver. cbv zeta.
  unfold mbind, tell, lift, ret. rewrite Hreal, Hverify. reflexivity.
Qed.

Lemma inserts_app (l1 l2 : list effect) :
  inserts (l1 ++ l2)%list = (inserts l1 ++ inserts l2)%list.
Proof. apply flat_map_app. Qed.

Lemma inserts_gate_log (env : environment) : inserts (gate_log env) = [].
Proof. unfold gate_log. now destruct (real_secret (WEBHOOK_SECRET env)). Qed.

Lemma after_gate_insert_inv (env : environment) (req : request) (st : collection)
    (d : event_data) :
  In d (inserts (snd (after_gate env req st))) ->
  exists p, request_json req = Ok p
            /\ normalize (header_event req) (utcnow_isoformat env) p = Ok (Some d).
Proof.
  unfold after_gate.
  destruct (request_json req) as [p|];
    [|cbn [snd]; rewrite inserts_app, inserts_gate_log; intros []].
  destruct (truthy p);
    [|cbn [snd]; rewrite inserts_app, inserts_gate_log; intros []].
  destruct (normalize (header_event req) (utcnow_isoformat env) p)
    as [[d'|]|] eqn:Hnorm.
  - destruct (insert_reply env); cbn [snd];
      rewrite inserts_app, inserts_gate_log; cbn; intros [<-|[]]; eauto.
  - destruct (dict_get p "action" (JStr "no action")); cbn [snd];
      rewrite inserts_app, inserts_gate_log; intros [].
  - cbn [snd]. rewrite inserts_app, inserts_gate_log. intros [].
Qed.

(** An insertion is attempted only with an event [normalize] produced from
    the parsed payload. *)
Lemma receiver_insert_inv (env : environment) (req : request) (st : collection)
    (d : event_data) :
  In d (inserts (snd (receiver env req st))) ->
  exists p, request_json req = Ok p
            /\ normalize (header_event req) (utcnow_isoformat env) p = Ok (Some d).
Proof.
  destruct (real_secret (WEBHOOK_SECRET env)) eqn:Hreal.
  - destruct (verify_webhook_signature (request_data req) (header_signature req)
                (WEBHOOK_SECRET env)) as [[|]|e] eqn:Hverify.
    + rewrite receiver_gate_passed by assumption. apply after_gate_insert_inv.
    + rewrite receiver_gate_failed by assumption. intros [].
    + rewrite (receiver_gate_raised _ _ _ e) by assumption. intros [].
  - rewrite receiver_gate_passed by now apply verify_bypass.
    apply after_gate_insert_inv.
Qed.

Lemma In_inserts (d : event_data) (log : list effect) :
  In (InsertOne d) log -> In d (inserts log).
Proof.
  intros H. unfold inserts. apply in_flat_map.
  exists (InsertOne d). split; [assumption|now left].
Qed.

Lemma field_or_not_null (d : json) (path : list string) (p : json) :
  null_at path p = false -> d <> JNull -> field_or d path p <> JNull.
Proof.
  unfold null_at, field_or. intros Hnull Hd.
  destruct (lookup path p) as [[]|]; congruence.
Qed.

(** *** The log lines *)

Lemma code_below_256 (c : ascii) : (code c < 256)%N.
Proof.
  unfold code. destruct c as [[] [] [] [] [] [] [] []]; vm_compute; reflexivity.
Qed.

Lemma chars_encodable (s : string) : forallb encodable_utf8 (chars s) = true.
Proof.
  unfold chars. induction s as [|c s IH]; [reflexivity|].
  cbn [list_ascii_of_string map forallb]. rewrite IH, andb_true_r.
  unfold encodable_utf8. apply orb_true_iff. left. apply N.ltb_lt.
  pose proof (code_below_256 c). lia.
Qed.

Lemma marked_line_encodable (mark : list N) (s : string) :
  forallb encodable_utf8 mark = true ->
  forallb encodable_utf8 (mark ++ chars s) = true.
Proof. intros H. now rewrite forallb_app, H, chars_encodable. Qed.

(** Every log line of the handler is free of surrogates (the text of the
    headers and of the payload lies below code point 256). *)
Ltac line_encodable :=
  first [ apply chars_encodable
        | apply marked_line_encodable; reflexivity
        | apply (marked_line_encodable [10%N]); reflexivity ].

Ltac write_lines Hout :=
  repeat match goal with
         | |- context [?out ?line] =>
             match type of out with stdout => idtac end;
             rewrite (Hout line) by
               (cbv delta [line_received line_event_type line_content_type
                  line_signature_failed line_no_payload line_json_error
                  line_payload_received line_event line_saved
                  line_store_error line_ignored]; cbv beta; line_encodable)
         end.

(** A stdout that writes everything is one of them. *)
Lemma writes_all_utf8 : writes_utf8 writes_all.
Proof. intros line _. reflexivity. Qed.

(** With a stdout that writes every surrogate-free text, the handler with
    its log lines answers, stores and performs what [receiver] does. *)
Lemma receiver_printing_written
    (out : stdout) (content_type : option string)
    (env : environment) (req : request) (st : collection) :
  writes_utf8 out ->
  fst (receiver_printing out content_type env req st)
  = fst (receiver env req st)
  /\ silent (snd (receiver_printing out content_type env req st))
     = snd (receiver env req st).
Proof.
  intros Hout.
  unfold receiver_printing, receiver, extract. cbv zeta.
  unfold mbind, try_except, insert_one, print, tell, lift, ret.
  write_lines Hout.
  destruct (real_secret (WEBHOOK_SECRET env)).
  - destruct (verify_webhook_signature (request_data req) (header_signature req)
                (WEBHOOK_SECRET env)) as [[|]|e]; cbn [negb];
      write_lines Hout; [|split; reflexivity|split; reflexivity].
    destruct (request_json req) as [p|e]; write_lines Hout;
      [|split; reflexivity].
    destruct (truthy p); cbn [negb]; write_lines Hout; [|split; reflexivity].
    destruct (normalize (header_event req) (utcnow_isoformat env) p)
      as [[d|]|e]; write_lines Hout; [| |split; reflexivity].
    + destruct (insert_reply env); write_lines Hout; split; reflexivity.
    + destruct (dict_get p "action" (JStr "no action")); write_lines Hout;
        split; reflexivity.
  - destruct (request_json req) as [p|e]; write_lines Hout;
      [|split; reflexivity].
    destruct (truthy p); cbn [negb]; write_lines Hout; [|split; reflexivity].
    destruct (normalize (header_event req) (utcnow_isoformat env) p)
      as [[d|]|e]; write_lines Hout; [| |split; reflexivity].
    + destruct (insert_reply env); write_lines Hout; split; reflexivity.
    + destruct (dict_get p "action" (JStr "no action")); write_lines Hout;
        split; reflexivity.
Qed.

(** Case analysis of a run of [receiver_printing], step by step. *)
Ltac split_run H :=
  repeat (match type of H with
          | context [match ?out ?line with _ => _ end] =>
              match type of out with stdout => idtac end;
              let E := fresh "Hout" in
              destruct (out line) as [[]|?] eqn:E
          | context [if real_secret ?s then _ else _] =>
              destruct (real_secret s)
          | context [match verify_webhook_signature ?a ?b ?c with _ => _ end] =>
              let E := fresh "Hverify" in
              destruct (verify_webhook_signature a b c) as [[|]|?] eqn:E
          | context [match request_json ?r with _ => _ end] =>
              destruct (request_json r)
          | context [if negb (truthy ?p) then _ else _] =>
              destruct (truthy p)
          | context [match normalize ?a ?b ?c with _ => _ end] =>
              let E := fresh "Hnorm" in
              destruct (normalize a b c) as [[?|]|?] eqn:E
          | context [match insert_reply ?e with _ => _ end] =>
              destruct (insert_reply e)
          | context [match dict_get ?a ?b ?c with _ => _ end] =>
              let E := fresh "Hget" in
              destruct (dict_get a b c) eqn:E
          end; cbn [negb fst snd app] in H).

(** *** Claims on the endpoint *)

(** An insertion is attempted only with an event the dispatch produced from
    the parsed payload. *)
Lemma receiver_printing_insert_inv
    (out : stdout) (content_type : option string)
    (env : environment) (req : request) (st st' : collection)
    (r : result response) (log : list effect) (d : event_data) :
  receiver_printing out content_type env req st = (r, st', log) ->
  In (InsertOne d) log ->
  exists p, request_json req = Ok p
            /\ normalize (header_event req) (utcnow_isoformat env) p
               = Ok (Some d).
Proof.
  unfold receiver_printing, extract. cbv zeta.
  unfold mbind, try_except, insert_one, print, tell, lift, ret.
  intros H Hin. split_run H.
  all: injection H as <- <- <-.
  all: cbn in Hin.
  all: repeat (destruct Hin as [Hin|Hin]; [try discriminate Hin|]).
  all: try contradiction.
  all: injection Hin as <-; eauto.
Qed.

(** C6 (as stated, refuted).  A push whose [after] is an explicit [null] is
    inserted with a null [request_id]. *)
Lemma inserted_event_counterexample :
  receiver_printing writes_all (Some "application/json")
    (Environment None "2024-01-01T12:00:00.000000" (Inserted sample_id))
    (Request (Some "push") None (ascii_bytes "{}")
       (Ok (JObj [("after", JNull);
                  ("pusher", JObj [("name", JStr "alice")]);
                  ("ref", JStr "refs/heads/main")])))
    []
  = (Ok (success sample_id),
     [Document sample_id
        (EventData JNull (JStr "alice") "PUSH" JNull (JStr "main")
                   "2024-01-01T12:00:00.000000")],
     [Printed line_received;
      Printed (line_event_type (Some "push"));
      Printed (line_content_type (Some "application/json"));
      ReadJson;
      Printed (line_payload_received (Some "push"));
      Dispatch;
      Printed (line_event
                 (EventData JNull (JStr "alice") "PUSH" JNull (JStr "main")
                            "2024-01-01T12:00:00.000000"));
      InsertOne (EventData JNull (JStr "alice") "PUSH" JNull (JStr "main")
                           "2024-01-01T12:00:00.000000");
      Printed (line_saved sample_id)]).
Proof. vm_compute. reflexivity. Qed.

Lemma no_explicit_null_for_at (act : string) (p : json) (path : list string) :
  no_explicit_null_for act p = true -> In path (copied_paths_for act) ->
  null_at path p = false.
Proof.
  unfold no_explicit_null_for. rewrite forallb_forall. intros H Hin.
  apply negb_true_iff. now apply H.
Qed.

(** C6 (amended).  Every event passed to [insert_one] has action PUSH,
    PULL_REQUEST or MERGE, and a PUSH has no [from_branch]; and when the
    payload holds no explicit [null] at the keys the fields of that action
    are copied from ([after] and [pusher.name] for PUSH; [user.login],
    [head.ref] and [base.ref] for PULL_REQUEST; [merge_commit_sha],
    [merged_by.login], [head.ref] and [base.ref] for MERGE), no field is null
    except [from_branch], which is null exactly when the action is PUSH. *)
Theorem inserted_event_invariant
    (out : stdout) (content_type : option string)
    (env : environment) (req : request) (st st' : collection)
    (r : result response) (log : list effect) (d : event_data) :
  receiver_printing out content_type env req st = (r, st', log) ->
  In (InsertOne d) log ->
  (action d = "PUSH" \/ action d = "PULL_REQUEST" \/ action d = "MERGE")
  /\ (action d = "PUSH" -> from_branch d = JNull)
  /\ (forall p, request_json req = Ok p ->
        no_explicit_null_for (action d) p = true ->
        request_id d <> JNull /\ author d <> JNull /\ to_branch d <> JNull
        /\ (from_branch d = JNull <-> action d = "PUSH")).
Proof.
  intros Hrun Hin.
  destruct (receiver_printing_insert_inv _ _ _ _ _ _ _ _ _ Hrun Hin)
    as (p & Hjson & Hnorm).
  assert (Hnull : forall q, request_json req = Ok q ->
                    no_explicit_null_for (action d) q = true ->
                    forall path, In path (copied_paths_for (action d)) ->
                                 null_at path p = false).
  { intros q Hq Hnn path Hpath. rewrite Hjson in Hq. injection Hq as <-.
    now apply (no_explicit_null_for_at (action d)). }
  destruct (normalize_event_inv _ _ _ _ Hnorm)
    as [(_ & _ & ->) | [(_ & _ & _ & ->) | (_ & _ & _ & _ & ->)]];
    cbn [push_event pull_request_event merge_event
         action request_id author from_branch to_branch] in *.
  all: split; [auto|]; split; [try reflexivity; try discriminate|].
  all: intros q Hq Hnn; specialize (Hnull q Hq Hnn).
  all: repeat match goal with
       | |- _ /\ _ => split
       | |- JStr _ <> JNull => discriminate
       | |- field_or _ _ _ <> JNull =>
           apply field_or_not_null; [apply Hnull; cbn; tauto|discriminate]
       | |- JNull = JNull <-> _ => split; intros _; reflexivity
       | |- field_or _ _ _ = JNull <-> _ =>
           split; [intros Hfrom; exfalso; revert Hfrom;
                   change (field_or (JStr "unknown") ["pull_request"; "head"; "ref"] p <> JNull)
                  |discriminate]
       end.
Qed.

(** An opened pull request as GitHub sends it, with [merge_commit_sha] and
    [merged_by] null: its event holds no null. *)
Lemma inserted_event_invariant_witness :
  JStr "42" <> JNull /\ JStr "bob" <> JNull /\ JStr "main" <> JNull
  /\ (JStr "feat" = JNull <-> "PULL_REQUEST" = "PUSH").
Proof.
  refine (proj2 (proj2 (inserted_event_invariant writes_all
    (Some "application/json")
    (Environment None "2024-01-01T12:00:00.000000" (Inserted sample_id))
    (Request (Some "pull_request") None (ascii_bytes "{}")
       (Ok (JObj [("action", JStr "opened");
                  ("pull_request",
                   JObj [("id", JInt 42);
                         ("user", JObj [("login", JStr "bob")]);
                         ("head", JObj [("ref", JStr "feat")]);
                         ("base", JObj [("ref", JStr "main")]);
                         ("merged", JBool false);
                         ("merged_by", JNull);
                         ("merge_commit_sha", JNull)])])))
    [] _ _ _
    (EventData (JStr "42") (JStr "bob") "PULL_REQUEST" (JStr "feat")
               (JStr "main") "2024-01-01T12:00:00.000000")
    eq_refl _)) _ eq_refl eq_refl).
  cbn. tauto.
Defined.

(** C7 (the code at the failing input).  A real secret is configured and the
    signature header is forged with a character outside ASCII: the verifier
    does not return false, [compare_digest] raises TypeError, and the handler
    is left by that exception instead of answering 401. *)
Lemma receiver_non_ascii_signature_not_rejected :
  receiver_printing writes_all (Some "application/json")
    (Environment (Some "It's a Secret to Everybody")
                 "2024-01-01T12:00:00.000000" (Inserted sample_id))
    (Request (Some "push") (Some ("sha256=" ++ String (ascii_of_nat 233) ""))
             (ascii_bytes "Hello, World!")
             (Ok (JObj [("after", JStr "sha1")])))
    []
  = (Raise (TypeError "comparing strings with non-ASCII characters is not supported"),
     [],
     [Printed line_received;
      Printed (line_event_type (Some "push"));
      Printed (line_content_type (Some "application/json"));
      CallVerify]).
Proof. vm_compute. reflexivity. Qed.

(** C8 (as stated, refuted).  Two verified, parsed, non-empty payloads with
    the event type "issues" that are not answered 200: for an array the log
    line of the ignored path calls [payload.get], which a list lacks; for an
    object the same log line begins with a warning sign, and when stdout
    cannot encode it [print] raises.  Either exception leaves the handler. *)
Lemma receiver_unhandled_counterexample :
  receiver_printing writes_all (Some "application/json")
    (Environment None "2024-01-01T12:00:00.000000" (Inserted sample_id))
    (Request (Some "issues") None (ascii_bytes "[1]") (Ok (JArr [JInt 1])))
    []
  = (Raise (AttributeError "'list' object has no attribute 'get'"),
     [],
     [Printed line_received;
      Printed (line_event_type (Some "issues"));
      Printed (line_content_type (Some "application/json"));
      ReadJson;
      Printed (line_payload_received (Some "issues"));
      Dispatch])
  /\ receiver_printing ascii_stdout (Some "application/json")
       (Environment None "2024-01-01T12:00:00.000000" (Inserted sample_id))
       (Request (Some "issues") None (ascii_bytes "{}")
                (Ok (JObj [("action", JStr "opened")])))
       []
     = (Raise (UnicodeEncodeError
                 "'ascii' codec can't encode characters in position 0-1: ordinal not in range(128)"),
        [],
        [Printed line_received;
         Printed (line_event_type (Some "issues"));
         Printed (line_content_type (Some "application/json"));
         ReadJson;
         Printed (line_payload_received (Some "issues"));
         Dispatch]).
Proof. split; vm_compute; reflexivity. Qed.

(** C8 (amended).  For every verified, parsed, non-empty payload that is a
    JSON object and whose event is not handled (an event type other than
    push and pull_request; a pull_request action other than opened, reopened
    and closed; or a closed pull request whose [pull_request] is absent or an
    object and whose [merged] is falsy), provided stdout writes the five log
    lines of this path, the endpoint responds 200 with
    [{status: "ignored", reason: "Event type not handled"}]; the collection
    is unchanged and no insertion is attempted. *)
Theorem receiver_ignores_unhandled
    (out : stdout) (content_type : option string)
    (env : environment) (req : request) (st : collection)
    (fields : list (string * json)) :
  verify_webhook_signature (request_data req) (header_signature req)
                           (WEBHOOK_SECRET env) = Ok true ->
  request_json req = Ok (JObj fields) -> fields <> [] ->
  unhandled (header_event req) (JObj fields) ->
  Forall (fun line => out line = Ok tt)
         [line_received;
          line_event_type (header_event req);
          line_content_type content_type;
          line_payload_received (header_event req);
          line_ignored (header_event req)
            (field_or (JStr "no action") ["action"] (JObj fields))] ->
  receiver_printing out content_type env req st
  = (Ok (Response 200 (JObj [("status", JStr "ignored");
                             ("reason", JStr "Event type not handled")])),
     st,
     ([Printed line_received;
       Printed (line_event_type (header_event req));
       Printed (line_content_type content_type)]
      ++ gate_log env
      ++ [ReadJson;
          Printed (line_payload_received (header_event req));
          Dispatch;
          Printed (line_ignored (header_event req)
                     (field_or (JStr "no action") ["action"] (JObj fields)))])%list).
Proof.
  intros Hverify Hjson Hne Hun Hlines.
  inversion_clear Hlines as [|? ? H1 Hlines'].
  inversion_clear Hlines' as [|? ? H2 Hlines].
  inversion_clear Hlines as [|? ? H3 Hlines'].
  inversion_clear Hlines' as [|? ? H4 Hlines].
  inversion_clear Hlines as [|? ? H5 _].
  assert (Hnorm : normalize (header_event req) (utcnow_isoformat env)
                            (JObj fields) = Ok None).
  { destruct Hun as [[Hpush Hpr] | [(Hpr & Hopen & Hclosed)
                                   | (Hpr & Hclosed & Hobj & Hmerged)]].
    - now apply normalize_other_type.
    - destruct (header_event req) as [t|]; [|discriminate].
      apply String.eqb_eq in Hpr. subst t.
      now apply normalize_pull_request_unlisted.
    - destruct (header_event req) as [t|]; [|discriminate].
      apply String.eqb_eq in Hpr. subst t.
      apply normalize_pull_request_other.
      + unfold pull_request_shape. now rewrite Hobj.
      + now apply closed_not_opened.
      + unfold closed_and_merged. rewrite Hmerged. apply andb_false_r. }
  destruct fields as [|kv fields]; [congruence|].
  unfold receiver_printing, extract, gate_log. cbv zeta.
  unfold mbind, try_except, print, tell, lift, ret.
  rewrite H1, H2, H3.
  destruct (real_secret (WEBHOOK_SECRET env)); rewrite ?Hverify;
    rewrite Hjson; cbn [truthy negb]; rewrite H4, Hnorm, dict_get_object, H5;
    reflexivity.
Qed.

(** The "issues" example of the specification. *)
Lemma receiver_ignores_unhandled_witness :
  receiver_printing writes_all (Some "application/json")
    (Environment None "2024-01-01T12:00:00.000000" (Inserted sample_id))
    (Request (Some "issues") None (ascii_bytes "{}")
             (Ok (JObj [("action", JStr "opened")])))
    []
  = (Ok (Response 200 (JObj [("status", JStr "ignored");
                             ("reason", JStr "Event type not handled")])),
     [],
     [Printed line_received;
      Printed (line_event_type (Some "issues"));
      Printed (line_content_type (Some "application/json"));
      ReadJson;
      Printed (line_payload_received (Some "issues"));
      Dispatch;
      Printed (line_ignored (Some "issues") (JStr "opened"))]).
Proof.
  refine (receiver_ignores_unhandled writes_all (Some "application/json")
            (Environment None "2024-01-01T12:00:00.000000" (Inserted sample_id))
            (Request (Some "issues") None (ascii_bytes "{}")
                     (Ok (JObj [("action", JStr "opened")])))
            [] [("action", JStr "opened")] eq_refl eq_refl _ _ _).
  - discriminate.
  - left. split; reflexivity.
  - repeat constructor.
Defined.




(* ================================================================= *)
(** ** The events query *)

Lemma string_leb_trans (a b c : string) :
  String.leb a b = true -> String.leb b c = true -> String.leb a c = true.
Proof.
  unfold String.leb. revert b c.
  induction a as [|x a IH]; intros [|y b] [|z c]; cbn [String.compare];
    try easy.
  unfold Ascii.compare.
  destruct (N.compare_spec (N_of_ascii x) (N_of_ascii y)) as [Hxy|Hxy|Hxy];
    destruct (N.compare_spec (N_of_ascii y) (N_of_ascii z)) as [Hyz|Hyz|Hyz];
    destruct (N.compare_spec (N_of_ascii x) (N_of_ascii z)) as [Hxz|Hxz|Hxz];
    try easy; try lia.
  apply IH.
Qed.

Lemma newer_or_equal_trans (a b c : document) :
  newer_or_equal a b -> newer_or_equal b c -> newer_or_equal a c.
Proof. unfold newer_or_equal. intros H1 H2. eapply string_leb_trans; eauto. Qed.

Lemma newer_or_equal_total (a b : document) :
  newer_or_equal a b \/ newer_or_equal b a.
Proof. unfold newer_or_equal. apply String.leb_total. Qed.

Lemma insert_desc_perm (d : document) (l : list document) :
  Permutation (insert_desc d l) (d :: l).
Proof.
  induction l as [|x l IH]; cbn [insert_desc]; [reflexivity|].
  destruct (String.leb (timestamp (event x)) (timestamp (event d)));
    [reflexivity|].
  rewrite IH. apply perm_swap.
Qed.

Lemma sort_desc_perm (l : list document) : Permutation (sort_desc l) l.
Proof.
  induction l as [|d l IH]; cbn [sort_desc]; [reflexivity|].
  rewrite insert_desc_perm. now constructor.
Qed.

Lemma insert_desc_sorted (d : document) (l : list document) :
  StronglySorted newer_or_equal l ->
  StronglySorted newer_or_equal (insert_desc d l).
Proof.
  induction 1 as [|x l Hsorted IH Hall]; cbn [insert_desc].
  - repeat constructor.
  - destruct (String.leb (timestamp (event x)) (timestamp (event d))) eqn:Hle.
    + constructor; [now constructor|].
      constructor; [exact Hle|].
      eapply Forall_impl; [|exact Hall].
      intros y Hy. eapply newer_or_equal_trans; [exact Hle|exact Hy].
    + constructor; [assumption|].
      assert (Hxd : newer_or_equal x d).
      { destruct (newer_or_equal_total x d) as [H|H]; [assumption|].
        unfold newer_or_equal in H. congruence. }
      eapply Permutation_Forall; [symmetry; apply insert_desc_perm|].
      now constructor.
Qed.

Lemma sort_desc_sorted (l : list document) :
  StronglySorted newer_or_equal (sort_desc l).
Proof.
  induction l as [|d l IH]; cbn [sort_desc]; [constructor|].
  now apply insert_desc_sorted.
Qed.

Lemma sorted_app_inv (l1 l2 : list document) :
  StronglySorted newer_or_equal (l1 ++ l2) ->
  StronglySorted newer_or_equal l1
  /\ (forall a b, In a l1 -> In b l2 -> newer_or_equal a b).
Proof.
  induction l1 as [|x l1 IH]; cbn [app]; intros H.
  - split; [constructor|]. intros a b [].
  - inversion H as [|? ? Hsorted Hall]; subst.
    destruct (IH Hsorted) as [IH1 IH2].
    rewrite Forall_app in Hall. destruct Hall as [Hall1 Hall2].
    split; [now constructor|].
    intros a b [<-|Ha] Hb.
    + rewrite Forall_forall in Hall2. now apply Hall2.
    + now apply IH2.
Qed.

(** C9.  For every state of the collection, [GET /api/events] answers 200
    with a JSON array holding, for each of the [min 10 n] documents of newest
    timestamp among the [n] stored, the object of its seven fields: [_id] as
    the hexadecimal string of the identifier the store assigned, then
    [request_id], [author], [action], [from_branch], [to_branch] and
    [timestamp] as stored.  The objects are in descending order of timestamp,
    every document left out is no newer than the ones listed, and for an
    empty collection the array is empty. *)
Theorem get_events_spec (st : collection) :
  exists listed left_out : list document,
    get_events st
    = Response 200
        (JArr (map (fun d =>
                      JObj [("_id", JStr (hex_of_bytes (_id d)));
                            ("request_id", request_id (event d));
                            ("author", author (event d));
                            ("action", JStr (action (event d)));
                            ("from_branch", from_branch (event d));
                            ("to_branch", to_branch (event d));
                            ("timestamp", JStr (timestamp (event d)))])
                   listed))
    /\ List.length listed = Nat.min 10 (List.length st)
    /\ List.length listed <= 10
    /\ Permutation (listed ++ left_out) st
    /\ StronglySorted newer_or_equal listed
    /\ Forall (fun old => Forall (fun d => newer_or_equal d old) listed) left_out
    /\ get_events [] = Response 200 (JArr []).
Proof.
  exists (firstn 10 (sort_desc st)), (skipn 10 (sort_desc st)).
  pose proof (sort_desc_sorted st) as Hsorted.
  rewrite <- (firstn_skipn 10 (sort_desc st)) in Hsorted.
  apply sorted_app_inv in Hsorted as [Hsorted Hcross].
  repeat split.
  - rewrite length_firstn. now rewrite (Permutation_length (sort_desc_perm st)).
  - rewrite length_firstn. apply Nat.le_min_l.
  - rewrite firstn_skipn. apply sort_desc_perm.
  - exact Hsorted.
  - rewrite Forall_forall. intros old Hold.
    rewrite Forall_forall. intros d Hd. now apply Hcross.
Qed.

(** The ordering example of the specification: after events stamped
    [t1 < t2 < t3], [recent 2] lists [t3] then [t2]. *)
Example recent_two_of_three :
  map (fun d => timestamp (event d))
      (recent 2
         [Document sample_id
            (EventData (JStr "a") (JStr "alice") "PUSH" JNull (JStr "main")
                       "2024-01-01T12:00:00.000001");
          Document sample_id
            (EventData (JStr "b") (JStr "alice") "PUSH" JNull (JStr "main")
                       "2024-01-01T12:00:00.000002");
          Document sample_id
            (EventData (JStr "c") (JStr "alice") "PUSH" JNull (JStr "main")
                       "2024-01-01T12:00:00.000003")])
  = ["2024-01-01T12:00:00.000003"; "2024-01-01T12:00:00.000002"].
Proof. reflexivity. Qed.

(** End to end: a signed push is stored, and the query then lists it
    first. *)
Example signed_push_then_query :
  let env := Environment (Some "It's a Secret to Everybody")
                         "2024-01-01T12:00:00.000000" (Inserted sample_id) in
  let req := Request (Some "push")
               (Some "sha256=757107ea0eb2509fc211221cce984b8a37570b6d7586c22c46f4379c8b043e17")
               (ascii_bytes "Hello, World!")
               (Ok (JObj [("after", JStr "sha1");
                          ("pusher", JObj [("name", JStr "alice")]);
                          ("ref", JStr "refs/heads/main")])) in
  let d := EventData (JStr "sha1") (JStr "alice") "PUSH" JNull (JStr "main")
                     "2024-01-01T12:00:00.000000" in
  receiver env req []
  = (Ok (Response 200 (JObj [("status", JStr "success");
                             ("id", JStr "507f1f77bcf86cd799439011")])),
     [Document sample_id d],
     [CallVerify; ReadJson; Dispatch; InsertOne d])
  /\ get_events [Document sample_id d]
     = Response 200 (JArr [event_json (Document sample_id d)]).
Proof. vm_compute. split; reflexivity. Qed.

(* ================================================================= *)
(** * Further properties of the code *)

(** ** The verifier *)

Lemma non_real_secret_cases (secret : option string) :
  real_secret secret = false
  <-> (secret = None \/ secret = Some "" \/ secret = Some placeholder_secret).
Proof.
  unfold real_secret. destruct secret as [key|]; cbn [truthy_str opt_eq_str].
  - split.
    + intros H. destruct (key =? "") eqn:He.
      * apply String.eqb_eq in He. subst. auto.
      * cbn [negb andb] in H. apply negb_false_iff, String.eqb_eq in H.
        subst. auto.
    + intros [H|[H|H]]; [discriminate| |]; injection H as ->; reflexivity.
  - split; auto.
Qed.

(** X1.  Signing and verifying round trip: for every body and every secret,
    the header ["sha256=" + hexdigest] computed from them is accepted. *)
Theorem verify_accepts_own_signature (payload_body : bytes) (key : string) :
  verify_webhook_signature payload_body
    (Some (expected_signature key payload_body)) (Some key) = Ok true.
Proof.
  unfold verify_webhook_signature.
  destruct ((key =? "") || (key =? placeholder_secret)); [reflexivity|].
  destruct (expected_signature key payload_body =? "") eqn:He.
  - apply String.eqb_eq in He.
    now apply expected_signature_nonempty in He.
  - unfold compare_digest.
    rewrite expected_signature_ascii. cbn [andb].
    now rewrite String.eqb_refl.
Qed.

Lemma length_append (a b : string) :
  String.length (a ++ b) = String.length a + String.length b.
Proof. induction a as [|c a IH]; cbn [append String.length]; [reflexivity|lia]. Qed.

Lemma hex_of_bytes_length (bs : bytes) :
  String.length (hex_of_bytes bs) = 2 * List.length bs.
Proof.
  induction bs as [|b bs IH]; [reflexivity|].
  change (hex_of_bytes (b :: bs))
    with (String (hex_digit (N.shiftr (Byte.to_N b) 4))
            (String (hex_digit (N.land (Byte.to_N b) 15)) (hex_of_bytes bs))).
  cbn [String.length List.length]. rewrite IH. lia.
Qed.

Lemma sha256_length (msg : bytes) : List.length (Sha256.sha256 msg) = 32.
Proof.
  unfold Sha256.sha256. rewrite length_map.
  unfold Sha256.digest_words.
  cbn [flat_map Sha256.big_endian app List.length]. reflexivity.
Qed.

Lemma hmac_length (key msg : bytes) : List.length (Sha256.hmac key msg) = 32.
Proof. unfold Sha256.hmac. apply sha256_length. Qed.

(** X4.  Under a real secret, a header the verifier accepts is ASCII text of
    exactly 71 characters: ["sha256="] followed by 64 hexadecimal digits. *)
Theorem accepted_signature_format
    (payload_body : bytes) (header key : string) :
  key <> "" -> key <> placeholder_secret ->
  verify_webhook_signature payload_body (Some header) (Some key) = Ok true ->
  prefix "sha256=" header = true
  /\ String.length header = 71
  /\ is_ascii header = true.
Proof.
  intros Hne Hph. unfold verify_webhook_signature.
  apply String.eqb_neq in Hne, Hph. rewrite Hne, Hph. cbn [orb].
  destruct (header =? ""); [discriminate|].
  intros H. apply compare_digest_true in H; [|apply expected_signature_ascii].
  subst header. split; [|split].
  - unfold expected_signature. reflexivity.
  - unfold expected_signature.
    rewrite length_append, hex_of_bytes_length, hmac_length. reflexivity.
  - apply expected_signature_ascii.
Qed.

Lemma accepted_signature_format_witness :
  prefix "sha256="
    "sha256=757107ea0eb2509fc211221cce984b8a37570b6d7586c22c46f4379c8b043e17"
  = true
  /\ String.length
       "sha256=757107ea0eb2509fc211221cce984b8a37570b6d7586c22c46f4379c8b043e17"
     = 71
  /\ is_ascii
       "sha256=757107ea0eb2509fc211221cce984b8a37570b6d7586c22c46f4379c8b043e17"
     = true.
Proof.
  refine (accepted_signature_format (ascii_bytes "Hello, World!")
            "sha256=757107ea0eb2509fc211221cce984b8a37570b6d7586c22c46f4379c8b043e17"
            "It's a Secret to Everybody" _ _ _).
  - discriminate.
  - discriminate.
  - vm_compute. reflexivity.
Defined.

(** ** The signature gate of the endpoint *)



(** X3.  With a real secret configured, a signature header holding a
    character outside ASCII is not answered 401: [compare_digest] raises
    TypeError, nothing in the handler catches it, and it leaves [receiver]
    before the payload is read; the collection is unchanged. *)
Theorem receiver_raises_on_non_ascii_signature
    (env : environment) (req : request) (st : collection)
    (key header : string) :
  WEBHOOK_SECRET env = Some key -> key <> "" -> key <> placeholder_secret ->
  header_signature req = Some header -> is_ascii header = false ->
  receiver env req st
  = (Raise (TypeError "comparing strings with non-ASCII characters is not supported"),
     st, [CallVerify]).
Proof.
  intros Hkey Hne Hph Hsig Hascii. apply receiver_gate_raised.
  - apply real_secret_iff. eauto.
  - rewrite Hkey, Hsig. now apply verify_raises_on_non_ascii_header.
Qed.

Lemma receiver_raises_on_non_ascii_signature_witness :
  receiver (Environment (Some "It's a Secret to Everybody")
                        "2024-01-01T12:00:00.000000" (Inserted sample_id))
           (Request (Some "push") (Some (String (ascii_of_nat 233) ""))
                    (ascii_bytes "Hello, World!")
                    (Ok (JObj [("after", JStr "sha1")])))
           []
  = (Raise (TypeError "comparing strings with non-ASCII characters is not supported"),
     [], [CallVerify]).
Proof.
  refine (receiver_raises_on_non_ascii_signature
            (Environment (Some "It's a Secret to Everybody")
                         "2024-01-01T12:00:00.000000" (Inserted sample_id))
            (Request (Some "push") (Some (String (ascii_of_nat 233) ""))
                     (ascii_bytes "Hello, World!")
                     (Ok (JObj [("after", JStr "sha1")])))
            [] "It's a Secret to Everybody" (String (ascii_of_nat 233) "")
            eq_refl _ _ eq_refl eq_refl).
  - discriminate.
  - discriminate.
Defined.

Lemma verify_raise_inv
    (payload_body : bytes) (header secret : option string) (e : exn) :
  verify_webhook_signature payload_body header secret = Raise e ->
  e = non_ascii_digest.
Proof.
  unfold verify_webhook_signature, compare_digest.
  destruct secret as [key|]; [|discriminate].
  destruct ((key =? "") || (key =? placeholder_secret)); [discriminate|].
  destruct header as [h|]; [|discriminate].
  destruct (h =? ""); [discriminate|].
  destruct (is_ascii (expected_signature key payload_body) && is_ascii h);
    [discriminate|congruence].
Qed.

(** How a run of [receiver] can begin: the gate lets the request through, it
    answers 401, or the verifier raises. *)
Lemma receiver_cases (env : environment) (req : request) (st : collection) :
  (verify_webhook_signature (request_data req) (header_signature req)
     (WEBHOOK_SECRET env) = Ok true
   /\ receiver env req st = after_gate env req st)
  \/ (real_secret (WEBHOOK_SECRET env) = true
      /\ receiver env req st = (Ok invalid_signature, st, [CallVerify]))
  \/ (real_secret (WEBHOOK_SECRET env) = true
      /\ receiver env req st = (Raise non_ascii_digest, st, [CallVerify])).
Proof.
  destruct (real_secret (WEBHOOK_SECRET env)) eqn:Hreal.
  - destruct (verify_webhook_signature (request_data req) (header_signature req)
                (WEBHOOK_SECRET env)) as [[|]|e] eqn:Hverify.
    + left. split; [reflexivity|]. now apply receiver_gate_passed.
    + right. left. split; [reflexivity|]. now apply receiver_gate_failed.
    + right. right. split; [reflexivity|].
      pose proof (verify_raise_inv _ _ _ _ Hverify) as ->.
      now apply receiver_gate_raised.
  - left. pose proof (verify_bypass (request_data req) (header_signature req)
                        _ Hreal) as Hverify.
    split; [assumption|]. now apply receiver_gate_passed.
Qed.

(** ** The paths of the endpoint behind the gate *)







(** *** What a run can do to the collection *)

(** The outcome of the part behind the gate, for every collection at once. *)
Lemma after_gate_appends (env : environment) (req : request) :
  exists (r : result response) (added : list document) (log : list effect),
    (forall st, after_gate env req st = (r, (st ++ added)%list, log))
    /\ (added = []
        \/ exists oid d,
             added = [Document oid d] /\ r = Ok (success oid)
             /\ insert_reply env = Inserted oid).
Proof.
  unfold after_gate.
  destruct (request_json req) as [p|e].
  2:{ do 3 eexists. split; [intros st; rewrite app_nil_r; reflexivity|auto]. }
  destruct (truthy p).
  2:{ do 3 eexists. split; [intros st; rewrite app_nil_r; reflexivity|auto]. }
  destruct (normalize (header_event req) (utcnow_isoformat env) p)
    as [[d|]|e] eqn:Hnorm.
  - destruct (insert_reply env) as [oid|msg] eqn:Hreply.
    + exists (Ok (success oid)), [Document oid d]. eexists.
      split; [intros st; reflexivity|]. right. exists oid, d. auto.
    + do 3 eexists. split; [intros st; rewrite app_nil_r; reflexivity|auto].
  - destruct (dict_get p "action" (JStr "no action"));
      do 3 eexists; (split; [intros st; rewrite app_nil_r; reflexivity|auto]).
  - do 3 eexists. split; [intros st; rewrite app_nil_r; reflexivity|auto].
Qed.

Lemma receiver_appends (env : environment) (req : request) :
  exists (r : result response) (added : list document) (log : list effect),
    (forall st, receiver env req st = (r, (st ++ added)%list, log))
    /\ (added = []
        \/ exists oid d,
             added = [Document oid d] /\ r = Ok (success oid)
             /\ insert_reply env = Inserted oid).
Proof.
  destruct (real_secret (WEBHOOK_SECRET env)) eqn:Hreal.
  - destruct (verify_webhook_signature (request_data req) (header_signature req)
                (WEBHOOK_SECRET env)) as [[|]|e] eqn:Hverify.
    + destruct (after_gate_appends env req)
        as (r & added & log & Hrun & Hadded).
      exists r, added, log. split.
      * intros st. rewrite receiver_gate_passed by assumption. apply Hrun.
      * destruct Hadded as [->|(oid & d & -> & -> & Hreply)]; eauto 6.
    + do 3 eexists. split; [|left; reflexivity].
      intros st. rewrite receiver_gate_failed by assumption.
      now rewrite app_nil_r.
    + do 3 eexists. split; [|left; reflexivity].
      intros st. rewrite (receiver_gate_raised _ _ _ e) by assumption.
      now rewrite app_nil_r.
  - destruct (after_gate_appends env req)
      as (r & added & log & Hrun & Hadded).
    exists r, added, log. split.
    + intros st. rewrite receiver_gate_passed by now apply verify_bypass.
      apply Hrun.
    + destruct Hadded as [->|(oid & d & -> & -> & Hreply)]; eauto 6.
Qed.

(** X8.  The handler never reads, changes or removes what is stored: its
    response and its effects are the same on every collection, and the new
    collection is the old one followed by nothing or by the single document
    of a successful insertion.  In particular a delivery accepted once is
    stored again when it is repeated. *)
Theorem receiver_only_appends (env : environment) (req : request) :
  exists (r : result response) (added : list document) (log : list effect),
    (forall st, receiver env req st = (r, (st ++ added)%list, log))
    /\ List.length added <= 1
    /\ (added = [] \/ exists oid d, added = [Document oid d]
                                    /\ r = Ok (success oid)).
Proof.
  destruct (receiver_appends env req) as (r & added & log & Hrun & Hadded).
  exists r, added, log. split; [assumption|].
  destruct Hadded as [->|(oid & d & -> & -> & _)].
  - split; [cbn; lia|auto].
  - split; [cbn; lia|eauto].
Qed.

(** *** Status codes and escaping exceptions *)






(** *** Bypass mode *)

(** X11.  When WEBHOOK_SECRET is unset in the environment, empty, or the
    placeholder, the application runs without verification: for every
    request the handler does the same whatever the signature header, the
    verifier is not called, and the answer is never 401. *)
Theorem unset_secret_disables_verification
    (environ : Config.environ) (now : string) (reply : store_reply)
    (out : stdout) (content_type : option string)
    (req : request) (st : collection) (signature : option string) :
  (Config.get "WEBHOOK_SECRET" environ = None
   \/ Config.get "WEBHOOK_SECRET" environ = Some ""
   \/ Config.get "WEBHOOK_SECRET" environ = Some placeholder_secret) ->
  receiver_printing out content_type
    (serving (Config.load environ) now reply) (with_signature req signature) st
  = receiver_printing out content_type
      (serving (Config.load environ) now reply) req st
  /\ ~ In CallVerify
         (snd (receiver_printing out content_type
                 (serving (Config.load environ) now reply) req st))
  /\ (forall resp,
        fst (fst (receiver_printing out content_type
                    (serving (Config.load environ) now reply) req st))
        = Ok resp ->
        status resp <> 401).
Proof.
  intros Hsecret.
  set (env := serving (Config.load environ) now reply).
  assert (Hreal : real_secret (WEBHOOK_SECRET env) = false)
    by (apply non_real_secret_cases; exact Hsecret).
  split; [|split].
  - unfold receiver_printing. cbv zeta. rewrite Hreal. reflexivity.
  - destruct (receiver_printing out content_type env req st)
      as [[r st'] log] eqn:Hrun.
    revert Hrun. unfold receiver_printing, extract. cbv zeta. rewrite Hreal.
    unfold mbind, try_except, insert_one, print, tell, lift, ret.
    intros H. split_run H.
    all: injection H as <- <- <-.
    all: cbn; intuition discriminate.
  - intros resp.
    destruct (receiver_printing out content_type env req st)
      as [[r st'] log] eqn:Hrun.
    revert Hrun. unfold receiver_printing, extract. cbv zeta. rewrite Hreal.
    unfold mbind, try_except, insert_one, print, tell, lift, ret.
    intros H. split_run H.
    all: injection H as <- <- <-.
    all: cbn [fst]; intros Hresp; try discriminate Hresp.
    all: injection Hresp as <-; discriminate.
Qed.

Lemma unset_secret_disables_verification_witness :
  receiver_printing writes_all (Some "application/json")
    (serving (Config.load [("MONGO_URI", "mongodb://localhost")])
             "2024-01-01T12:00:00.000000" (Inserted sample_id))
    (with_signature
       (Request (Some "push") None (ascii_bytes "{}")
                (Ok (JObj [("after", JStr "sha1")])))
       (Some "sha256=forged")) []
  = receiver_printing writes_all (Some "application/json")
      (serving (Config.load [("MONGO_URI", "mongodb://localhost")])
               "2024-01-01T12:00:00.000000" (Inserted sample_id))
      (Request (Some "push") None (ascii_bytes "{}")
               (Ok (JObj [("after", JStr "sha1")]))) [].
Proof.
  exact (proj1 (unset_secret_disables_verification
           [("MONGO_URI", "mongodb://localhost")]
           "2024-01-01T12:00:00.000000" (Inserted sample_id)
           writes_all (Some "application/json")
           (Request (Some "push") None (ascii_bytes "{}")
              (Ok (JObj [("after", JStr "sha1")])))
           [] (Some "sha256=forged")
           (or_introl eq_refl))).
Defined.

(** *** What is inserted *)

Lemma run_insert_inv (env : environment) (req : request) (st st' : collection)
    (r : result response) (log : list effect) (d : event_data) :
  receiver env req st = (r, st', log) -> In (InsertOne d) log ->
  exists p, request_json req = Ok p
            /\ normalize (header_event req) (utcnow_isoformat env) p
               = Ok (Some d).
Proof.
  intros Hrun Hin. apply In_inserts in Hin.
  replace log with (snd (receiver env req st)) in Hin by now rewrite Hrun.
  now apply receiver_insert_inv in Hin.
Qed.

(** X12.  Every event passed to [insert_one] carries as timestamp the value
    of the clock read while the request is handled; nothing in the payload
    can set it. *)
Theorem inserted_event_timestamp
    (env : environment) (req : request) (st st' : collection)
    (r : result response) (log : list effect) (d : event_data) :
  receiver env req st = (r, st', log) ->
  In (InsertOne d) log ->
  timestamp d = utcnow_isoformat env.
Proof.
  intros Hrun Hin.
  destruct (run_insert_inv _ _ _ _ _ _ _ Hrun Hin) as (p & _ & Hnorm).
  destruct (normalize_event_inv _ _ _ _ Hnorm)
    as [(_ & _ & ->) | [(_ & _ & _ & ->) | (_ & _ & _ & _ & ->)]];
    reflexivity.
Qed.

Lemma inserted_event_timestamp_witness :
  timestamp (EventData (JStr "sha1") (JStr "Unknown") "PUSH" JNull (JStr "")
                       "2024-01-01T12:00:00.000000")
  = utcnow_isoformat (Environment None "2024-01-01T12:00:00.000000"
                                  (Inserted sample_id)).
Proof.
  refine (inserted_event_timestamp
            (Environment None "2024-01-01T12:00:00.000000" (Inserted sample_id))
            (Request (Some "push") None (ascii_bytes "{}")
               (Ok (JObj [("after", JStr "sha1");
                          ("timestamp", JStr "1999-12-31T23:59:59")])))
            [] _ _ _ _ eq_refl _).
  cbn. tauto.
Defined.

(** X13.  Whatever JSON values the payload holds, the [request_id] of an
    inserted PULL_REQUEST event and the [to_branch] of an inserted PUSH event
    are strings: the first is the [str] of the value under
    [pull_request.id], the second the result of [replace] on [ref]. *)
Theorem inserted_event_string_fields
    (env : environment) (req : request) (st st' : collection)
    (r : result response) (log : list effect) (d : event_data) :
  receiver env req st = (r, st', log) ->
  In (InsertOne d) log ->
  (action d = "PULL_REQUEST" ->
   exists p, request_json req = Ok p
             /\ request_id d
                = JStr (py_str (field_or (JStr "unknown") ["pull_request"; "id"] p)))
  /\ (action d = "PUSH" -> exists branch, to_branch d = JStr branch).
Proof.
  intros Hrun Hin.
  destruct (run_insert_inv _ _ _ _ _ _ _ Hrun Hin) as (p & Hjson & Hnorm).
  destruct (normalize_event_inv _ _ _ _ Hnorm)
    as [(_ & _ & ->) | [(_ & _ & _ & ->) | (_ & _ & _ & _ & ->)]];
    cbn [push_event pull_request_event merge_event action request_id to_branch];
    split; try discriminate; eauto.
Qed.

Lemma inserted_event_string_fields_witness :
  exists p,
    Ok (JObj [("action", JStr "opened");
              ("pull_request", JObj [("id", JNull)])]) = Ok p
    /\ JStr "None"
       = JStr (py_str (field_or (JStr "unknown") ["pull_request"; "id"] p)).
Proof.
  refine (proj1 (inserted_event_string_fields
            (Environment None "2024-01-01T12:00:00.000000" (Inserted sample_id))
            (Request (Some "pull_request") None (ascii_bytes "{}")
               (Ok (JObj [("action", JStr "opened");
                          ("pull_request", JObj [("id", JNull)])])))
            []
            [Document sample_id
               (EventData (JStr "None") (JStr "Unknown") "PULL_REQUEST"
                          (JStr "unknown") (JStr "unknown")
                          "2024-01-01T12:00:00.000000")]
            _ _
            (EventData (JStr "None") (JStr "Unknown") "PULL_REQUEST"
                       (JStr "unknown") (JStr "unknown")
                       "2024-01-01T12:00:00.000000")
            eq_refl _) eq_refl).
  cbn. tauto.
Defined.

(** *** Deliveries in sequence *)

Lemma deliver_app_collection
    (batch : list (environment * request)) (st : collection) :
  deliver batch st = (st ++ deliver batch [])%list
  /\ List.length (deliver batch []) <= List.length batch.
Proof.
  revert st. induction batch as [|[env req] rest IH]; intros st.
  - cbn [deliver List.length]. rewrite app_nil_r. auto.
  - cbn [deliver List.length].
    destruct (receiver_appends env req) as (r & added & log & Hrun & Hadded).
    rewrite (Hrun st), (Hrun []). cbn [fst snd app].
    destruct (IH (st ++ added)%list) as [Hst _].
    destruct (IH added) as [Hadd Hlen].
    rewrite Hst, Hadd, app_assoc. split; [reflexivity|].
    rewrite length_app.
    destruct Hadded as [->|(oid & d & -> & _)]; cbn [List.length]; lia.
Qed.

(** X14.  Deliveries handled one after the other only add to the collection:
    what a sequence of deliveries stores does not depend on what is already
    stored (there is no deduplication), it is appended after the existing
    documents, and it holds at most one document per delivery. *)
Theorem deliver_only_appends
    (batch : list (environment * request)) (st : collection) :
  deliver batch st = (st ++ deliver batch [])%list
  /\ List.length (deliver batch st) <= List.length st + List.length batch.
Proof.
  destruct (deliver_app_collection batch st) as [Heq Hlen].
  split; [assumption|]. rewrite Heq, length_app. lia.
Qed.

(** ** The payloads the dispatch can read *)

(** X15.  The push branch yields a result exactly for payloads that are an
    object whose [pusher] is absent or an object and whose [ref] is absent or
    a string; on every other payload it raises. *)
Theorem push_payloads_read (now : string) (p : json) :
  (exists r, normalize (Some "push") now p = Ok r)
  <-> (is_object p = true
       /\ object_or_absent ["pusher"] p = true
       /\ text_or_absent ["ref"] p = true).
Proof.
  split.
  - intros [r Hnorm]. apply normalize_push_inv in Hnorm.
    unfold push_shape in Hnorm.
    apply andb_prop in Hnorm as [Hnorm Href].
    apply andb_prop in Hnorm as [Hobj Hpusher]. auto.
  - intros (Hobj & Hpusher & Href). eexists.
    apply normalize_push_shape. unfold push_shape.
    now rewrite Hobj, Hpusher, Href.
Qed.

(** X16.  The pull_request branch yields a result exactly for payloads that
    are an object and, according to [action]: for opened and reopened, whose
    [pull_request], [user], [head] and [base] are each absent or an object;
    for closed, whose [pull_request] is absent or an object and, when
    [merged] is truthy, whose [merged_by], [head] and [base] are each absent
    or an object; for every other action no further condition ([pull_request]
    is not looked into). *)
Theorem pull_request_payloads_read (now : string) (p : json) :
  (exists r, normalize (Some "pull_request") now p = Ok r)
  <-> (is_object p = true
       /\ (opened_or_reopened p = true -> opened_shape p = true)
       /\ (eq_str (action_of p) "closed" = true ->
           pull_request_shape p = true
           /\ (truthy (field_or JNull ["pull_request"; "merged"] p) = true ->
               merge_shape p = true))).
Proof.
  split.
  - intros [r Hnorm].
    assert (Hobj : is_object p = true).
    { unfold normalize in Hnorm.
      cbn [opt_eq_str String.eqb Ascii.eqb Bool.eqb] in Hnorm.
      step Hnorm act Hact. exact (dict_get_Ok_object _ _ _ _ Hact). }
    split; [assumption|].
    destruct r as [e|].
    + destruct (normalize_pull_request_inv _ _ _ Hnorm)
        as [[Hopen Hshape] | (Hopen & Hmerged & Hshape)].
      * split; [auto|]. intros Hclosed.
        apply closed_not_opened in Hclosed. congruence.
      * split; [congruence|]. intros _.
        split; [|auto]. unfold merge_shape in Hshape.
        apply andb_prop in Hshape as [Hshape _].
        now apply andb_prop in Hshape as [Hshape _].
    + unfold normalize in Hnorm.
      cbn [opt_eq_str String.eqb Ascii.eqb Bool.eqb] in Hnorm.
      step Hnorm act Hact. step Hnorm pr Hpr.
      rewrite dict_get_action in Hact by assumption. injection Hact as <-.
      assert (Hprof : pr = pr_of p).
      { destruct p as [| | | | | |fields]; try discriminate.
        rewrite dict_get_object in Hpr. now injection Hpr as <-. }
      subst pr. fold (opened_or_reopened p) in Hnorm.
      destruct (opened_or_reopened p) eqn:Hopen.
      { step Hnorm pid Hid. step Hnorm user Huser. step Hnorm login Hlogin.
        step Hnorm head Hhead. step Hnorm head_ref Hhead_ref.
        step Hnorm base Hbase. step Hnorm base_ref Hbase_ref.
        discriminate. }
      split; [discriminate|]. intros Hclosed. rewrite Hclosed in Hnorm.
      step Hnorm is_merge Hmerge. step Hmerge merged Hmerged.
      pose proof (pull_request_shape_intro p Hobj
                    (dict_get_Ok_object _ _ _ _ Hmerged)) as Hshape.
      split; [assumption|].
      rewrite dict_get_pr_field in Hmerged by assumption.
      injection Hmerged as <-. injection Hmerge as <-.
      intros Htruthy. rewrite Htruthy in Hnorm.
      step Hnorm sha Hsha. step Hnorm merged_by Hmerged_by.
      step Hnorm login Hlogin.
      step Hnorm head Hhead. step Hnorm head_ref Hhead_ref.
      step Hnorm base Hbase. step Hnorm base_ref Hbase_ref.
      discriminate.
  - intros (Hobj & Hopened & Hclosed).
    destruct (opened_or_reopened p) eqn:Hopen.
    { eexists. apply normalize_opened_shape; auto. }
    destruct (eq_str (action_of p) "closed") eqn:Hcl.
    + destruct (Hclosed eq_refl) as [Hshape Hmerge].
      destruct (truthy (field_or JNull ["pull_request"; "merged"] p)) eqn:Ht.
      * eexists. apply normalize_merge_shape; [auto|].
        unfold closed_and_merged. now rewrite Hcl, Ht.
      * eexists. apply normalize_pull_request_other; try assumption.
        unfold closed_and_merged. now rewrite Hcl, Ht.
    + eexists. now apply normalize_pull_request_unlisted.
Qed.

(** ** Storing, then querying *)

(** A run that passes an event to [insert_one] while the store accepts it
    answers success and appends exactly that event. *)
Lemma run_inserted (env : environment) (req : request) (st st' : collection)
    (r : result response) (log : list effect) (d : event_data)
    (oid : ObjectId) :
  receiver env req st = (r, st', log) -> In (InsertOne d) log ->
  insert_reply env = Inserted oid ->
  r = Ok (success oid) /\ st' = (st ++ [Document oid d])%list.
Proof.
  intros Hrun Hin Hreply.
  destruct (receiver_cases env req st)
    as [[_ Hgate] | [[_ Hgate] | [_ Hgate]]];
    rewrite Hgate in Hrun.
  - unfold after_gate in Hrun. rewrite Hreply in Hrun.
    assert (Hgl : ~ In (InsertOne d) (gate_log env))
      by (unfold gate_log; destruct (real_secret (WEBHOOK_SECRET env));
          cbn; intuition discriminate).
    destruct (request_json req) as [p|].
    2:{ injection Hrun as <- <- <-. apply in_app_or in Hin as [Hin|Hin];
        [contradiction|cbn in Hin; intuition discriminate]. }
    destruct (truthy p).
    2:{ injection Hrun as <- <- <-. apply in_app_or in Hin as [Hin|Hin];
        [contradiction|cbn in Hin; intuition discriminate]. }
    destruct (normalize (header_event req) (utcnow_isoformat env) p)
      as [[d'|]|].
    + injection Hrun as <- <- <-. apply in_app_or in Hin as [Hin|Hin];
        [contradiction|].
      cbn in Hin. destruct Hin as [Hin|[Hin|[Hin|[]]]]; try discriminate.
      injection Hin as ->. auto.
    + destruct (dict_get p "action" (JStr "no action"));
        injection Hrun as <- <- <-; apply in_app_or in Hin as [Hin|Hin];
        try contradiction; cbn in Hin; intuition discriminate.
    + injection Hrun as <- <- <-. apply in_app_or in Hin as [Hin|Hin];
        [contradiction|cbn in Hin; intuition discriminate].
  - injection Hrun as <- <- <-. cbn in Hin. intuition discriminate.
  - injection Hrun as <- <- <-. cbn in Hin. intuition discriminate.
Qed.

Lemma ltb_not_leb (a b : string) :
  String.ltb a b = true -> String.leb b a = false.
Proof.
  unfold String.ltb, String.leb. rewrite (String.compare_antisym b a).
  destruct (String.compare a b); cbn; congruence.
Qed.

(** A document strictly newer than all the others sorts first. *)
Lemma sort_desc_newest_last (st : collection) (new : document) :
  Forall (fun x => String.ltb (timestamp (event x)) (timestamp (event new))
                   = true) st ->
  sort_desc (st ++ [new]) = new :: sort_desc st.
Proof.
  induction 1 as [|x st Hx Hall IH]; [reflexivity|].
  cbn [app sort_desc]. rewrite IH. cbn [insert_desc].
  now rewrite (ltb_not_leb _ _ Hx).
Qed.

(** X17.  Storing then querying: when an event is stored with a clock value
    strictly above every stored timestamp, the next [GET /api/events] lists
    it first, followed by the nine newest documents of the collection as it
    was. *)
Theorem stored_event_listed_first
    (env : environment) (req : request) (st st' : collection)
    (r : result response) (log : list effect) (d : event_data)
    (oid : ObjectId) :
  receiver env req st = (r, st', log) -> In (InsertOne d) log ->
  insert_reply env = Inserted oid ->
  Forall (fun x => String.ltb (timestamp (event x)) (utcnow_isoformat env)
                   = true) st ->
  get_events st'
  = Response 200 (JArr (event_json (Document oid d)
                        :: map event_json (recent 9 st))).
Proof.
  intros Hrun Hin Hreply Hold.
  destruct (run_inserted _ _ _ _ _ _ _ _ Hrun Hin Hreply) as [_ ->].
  destruct (run_insert_inv _ _ _ _ _ _ _ Hrun Hin) as (p & _ & Hnorm).
  assert (Htime : timestamp d = utcnow_isoformat env).
  { destruct (normalize_event_inv _ _ _ _ Hnorm)
      as [(_ & _ & ->) | [(_ & _ & _ & ->) | (_ & _ & _ & _ & ->)]];
      reflexivity. }
  unfold get_events, recent.
  rewrite sort_desc_newest_last by (cbn [event timestamp]; now rewrite Htime).
  reflexivity.
Qed.

Lemma stored_event_listed_first_witness :
  get_events
    [Document sample_id
       (EventData (JStr "old") (JStr "alice") "PUSH" JNull (JStr "main")
                  "2024-01-01T11:59:59.999999");
     Document sample_id
       (EventData (JStr "sha1") (JStr "Unknown") "PUSH" JNull (JStr "")
                  "2024-01-01T12:00:00.000000")]
  = Response 200
      (JArr (event_json
               (Document sample_id
                  (EventData (JStr "sha1") (JStr "Unknown") "PUSH" JNull
                             (JStr "") "2024-01-01T12:00:00.000000"))
             :: map event_json
                  (recent 9
                     [Document sample_id
                        (EventData (JStr "old") (JStr "alice") "PUSH" JNull
                                   (JStr "main")
                                   "2024-01-01T11:59:59.999999")]))).
Proof.
  refine (stored_event_listed_first
            (Environment None "2024-01-01T12:00:00.000000" (Inserted sample_id))
            (Request (Some "push") None (ascii_bytes "{}")
               (Ok (JObj [("after", JStr "sha1")])))
            [Document sample_id
               (EventData (JStr "old") (JStr "alice") "PUSH" JNull (JStr "main")
                          "2024-01-01T11:59:59.999999")]
            _ _ _ _ sample_id eq_refl _ eq_refl _).
  - cbn. tauto.
  - repeat constructor.
Defined.

(** X18.  Storing then querying, below the limit: when an event is stored
    into a collection that held fewer than ten documents, the next
    [GET /api/events] lists every stored document, the new one included. *)
Theorem stored_event_listed_below_limit
    (env : environment) (req : request) (st st' : collection)
    (r : result response) (log : list effect) (d : event_data)
    (oid : ObjectId) :
  receiver env req st = (r, st', log) -> In (InsertOne d) log ->
  insert_reply env = Inserted oid ->
  List.length st < 10 ->
  exists listed,
    get_events st' = Response 200 (JArr (map event_json listed))
    /\ Permutation listed (st ++ [Document oid d])
    /\ In (Document oid d) listed.
Proof.
  intros Hrun Hin Hreply Hlen.
  destruct (run_inserted _ _ _ _ _ _ _ _ Hrun Hin Hreply) as [_ ->].
  exists (sort_desc (st ++ [Document oid d])).
  split; [|split].
  - unfold get_events, recent. rewrite firstn_all2; [reflexivity|].
    rewrite (Permutation_length (sort_desc_perm _)), length_app.
    cbn [List.length]. lia.
  - apply sort_desc_perm.
  - eapply Permutation_in; [symmetry; apply sort_desc_perm|].
    apply in_or_app. right. now left.
Qed.

Lemma stored_event_listed_below_limit_witness :
  exists listed,
    get_events
      [Document sample_id
         (EventData (JStr "sha1") (JStr "Unknown") "PUSH" JNull (JStr "")
                    "2024-01-01T12:00:00.000000")]
    = Response 200 (JArr (map event_json listed))
    /\ Permutation listed
         ([] ++ [Document sample_id
                   (EventData (JStr "sha1") (JStr "Unknown") "PUSH" JNull
                              (JStr "") "2024-01-01T12:00:00.000000")])
    /\ In (Document sample_id
             (EventData (JStr "sha1") (JStr "Unknown") "PUSH" JNull
                        (JStr "") "2024-01-01T12:00:00.000000")) listed.
Proof.
  refine (stored_event_listed_below_limit
            (Environment None "2024-01-01T12:00:00.000000" (Inserted sample_id))
            (Request (Some "push") None (ascii_bytes "{}")
               (Ok (JObj [("after", JStr "sha1")])))
            [] _ _ _ _ sample_id eq_refl _ eq_refl _).
  - cbn. tauto.
  - cbn. lia.
Defined.
